(** * svg-image-extractor: a shallow embedding of the extraction and
      packaging pipeline, and the properties proved about it.

    Modules embedded, by their [@module] names:
    - lib/validators     (isValidSvg, isValidFile)
    - lib/errorHandler   (ValidationError, FetchError, ParseError, handleError)
    - lib/svgExtractor   (extractImages, countImages)
    - lib/zipGenerator   (generateZip, generateFilename)
    - constants/messages (ERROR_MESSAGES)
    - lib/urlFetcher     (isValidUrl of lib/validators, fetchSvgFromUrl)
    - lib/fileReader     (readSvgFile)
    - lib/imageDownloader (downloadSingleImage)

    [DOMParser], [Date.now] and the JSZip archive library are not part of
    the repository: the definitions take them as parameters.  So do they
    take the [URL] constructor, [fetch] and the [FileReader].

    Conventions.  A JavaScript string is a [string]: a sequence of code units,
    here restricted to the code units below 256.  A JavaScript number that the
    code only uses as an integer (an array index, a length, a byte count) is a
    [Z].  [null] and [undefined] are [None].  A thrown exception is the
    [Throw] case of [result]. *)

From Stdlib Require Import Strings.String Strings.Ascii Lists.List.
From Stdlib Require Import ZArith QArith Qround Lia Bool Sorting.Sorted.
From Stdlib Require Import Numbers.DecimalString Numbers.DecimalZ.
Import ListNotations.

Local Open Scope string_scope.
Local Open Scope Z_scope.

(** ** JavaScript primitives used by the sources *)

Module Js.

(** [s.startsWith(p)] *)
Fixpoint startsWith (s p : string) {struct p} : bool :=
  match p, s with
  | EmptyString, _ => true
  | String _ _, EmptyString => false
  | String a p', String b s' => Ascii.eqb a b && startsWith s' p'
  end.

(** [s.includes(t)] *)
Fixpoint includes (s t : string) : bool :=
  startsWith s t ||
  match s with
  | EmptyString => false
  | String _ s' => includes s' t
  end.

(** [s.endsWith(t)] *)
Fixpoint endsWith (s t : string) : bool :=
  String.eqb s t ||
  match s with
  | EmptyString => false
  | String _ s' => endsWith s' t
  end.

(** White space and line terminators among the code units below 256:
    TAB, LF, VT, FF, CR, SPACE and NO-BREAK SPACE. *)
Definition isWhiteSpace (c : ascii) : bool :=
  let n := nat_of_ascii c in
  ((9 <=? n)%nat && (n <=? 13)%nat) || (n =? 32)%nat || (n =? 160)%nat.

Fixpoint trimStart (s : string) : string :=
  match s with
  | EmptyString => EmptyString
  | String c s' => if isWhiteSpace c then trimStart s' else s
  end.

Fixpoint trimEnd (s : string) : string :=
  match s with
  | EmptyString => EmptyString
  | String c s' =>
      match trimEnd s' with
      | EmptyString => if isWhiteSpace c then EmptyString else String c EmptyString
      | r => String c r
      end
  end.

(** [s.trim()] *)
Definition trim (s : string) : string := trimEnd (trimStart s).

(** [s.split(sep)] for a separator of one code unit.  The result is never
    empty: [''.split(',')] is [['']]. *)
Fixpoint split (sep : ascii) (s : string) : list string :=
  match s with
  | EmptyString => [EmptyString]
  | String c r =>
      if Ascii.eqb c sep then EmptyString :: split sep r
      else match split sep r with
           | [] => [String c EmptyString]
           | h :: t => String c h :: t
           end
  end.

(** [s.length] *)
Definition length (s : string) : Z := Z.of_nat (String.length s).

(** Truthiness of a value that is a string, [null] or [undefined]. *)
Definition truthy (v : option string) : bool :=
  match v with
  | None => false
  | Some s => negb (String.eqb s "")
  end.

(** [a || b] on such values. *)
Definition or (a b : option string) : option string :=
  if truthy a then a else b.

(** [a || 'lit'] where the right operand is a string literal. *)
Definition orString (a : option string) (b : string) : string :=
  match a with
  | Some s => if String.eqb s "" then b else s
  | None => b
  end.

(** An integer number inside a template literal: its decimal digits. *)
Definition numberToString (n : Z) : string :=
  NilEmpty.string_of_int (Z.to_int n).

(** [Math.floor(a / b)] for integers [a] and a positive integer [b]. *)
Definition floorDiv (a b : Z) : Z := a / b.

(** [Math.round(x)]: the nearest integer, a tie going up. *)
Definition Math_round (x : Q) : Z := Qfloor (x + (1 # 2)).

(** The error classes: [Error], the built-in [TypeError], and the three
    classes errorHandler.js derives from [Error]. *)
Inductive error : Type :=
| Error (message : string)
| TypeError (message : string)
| ValidationError (message : string) (field : option string)
| FetchError (message : string) (url : option string) (statusCode : option Z)
| ParseError (message : string).

Definition message (e : error) : string :=
  match e with
  | Error m | TypeError m | ValidationError m _ | FetchError m _ _ | ParseError m => m
  end.

(** [new Error(m)] for [m] a string or [null]: the message is the string
    conversion of the argument. *)
Definition newError (m : option string) : error :=
  match m with
  | Some s => Error s
  | None => Error "null"
  end.

(** A computation that returns or throws. *)
Inductive result (A : Type) : Type :=
| Ok (a : A)
| Throw (e : error).
Arguments Ok {A} a.
Arguments Throw {A} e.

Definition bind {A B : Type} (r : result A) (k : A -> result B) : result B :=
  match r with
  | Ok a => k a
  | Throw e => Throw e
  end.

(** [try { body } catch (e) { handler(e) }] *)
Definition tryCatch {A : Type} (body : result A) (handler : error -> result A) : result A :=
  match body with
  | Ok a => Ok a
  | Throw e => handler e
  end.

End Js.

Notation "x <- c ;; k" := (Js.bind c (fun x => k))
  (at level 61, c at next level, right associativity).

(** ** src/constants/messages.js *)

Module ERROR_MESSAGES.
Definition NO_INPUT := "Please upload a file, enter a URL, or paste SVG code".
Definition INVALID_URL := "Please enter a valid URL starting with http:// or https://".
Definition FETCH_FAILED := "Failed to fetch SVG from URL. Please check the URL and try again.".
Definition CORS_ERROR :=
  "Unable to fetch from URL due to CORS restrictions. The server must allow cross-origin requests.".
Definition PARSE_ERROR := "Failed to parse SVG content. Please ensure it is valid SVG.".
Definition FILE_TOO_LARGE := "File size exceeds 10MB limit".
Definition INVALID_FILE_TYPE := "Please select a valid SVG file".
Definition NO_IMAGES_FOUND := "No embedded images found in the SVG file".
Definition ZIP_GENERATION_FAILED :=
  "Failed to generate ZIP file. Please try downloading images individually.".
Definition NETWORK_ERROR := "Network error occurred. Please check your connection and try again.".
Definition TIMEOUT_ERROR := "Request timed out. Please try again.".
Definition INVALID_SVG := "Content does not appear to be valid SVG".
Definition EMPTY_CONTENT := "SVG content is empty".
End ERROR_MESSAGES.

(** ** src/lib/errorHandler.js *)

Module ErrorHandler.
Import Js.

(** [handleError(error)].  The call to [console.error] only writes to the
    console and is left out. *)
Definition handleError (e : error) : string :=
  match e with
  | ValidationError m _ => m
  | FetchError m _ _ =>
      if includes m "CORS" || includes m "cors" then ERROR_MESSAGES.CORS_ERROR
      else if includes m "timeout" || includes m "Timeout" then ERROR_MESSAGES.TIMEOUT_ERROR
      else orString (Some m) ERROR_MESSAGES.FETCH_FAILED
  | ParseError _ => ERROR_MESSAGES.PARSE_ERROR
  | TypeError m =>
      if includes m "fetch" then ERROR_MESSAGES.NETWORK_ERROR
      else orString (Some m) "An unexpected error occurred. Please try again."
  | Error m => orString (Some m) "An unexpected error occurred. Please try again."
  end.

End ErrorHandler.

(** ** src/lib/validators.js *)

Module Validators.
Import Js.

Record ValidationResult : Type := mkValidation {
  valid : bool;
  error : option string
}.

(** [isValidSvg(content)] *)
Definition isValidSvg (content : string) : ValidationResult :=
  if negb (truthy (Some content)) || (length (trim content) =? 0) then
    mkValidation false (Some "SVG content is empty")
  else if negb (includes content "<svg") then
    mkValidation false (Some "Content does not appear to be valid SVG")
  else
    mkValidation true None.

(** The fields of a [File] that the validator reads. *)
Record File : Type := mkFile {
  size : Z;
  type : string;
  name : string
}.

Definition maxSize : Z := 10 * 1024 * 1024.
Definition validTypes : list string := ["image/svg+xml"; "text/xml"; "application/xml"].

(** [validTypes.includes(t)] *)
Definition validTypes_includes (t : string) : bool :=
  existsb (String.eqb t) validTypes.

(** [isValidFile(file)]; an absent handle ([null], [undefined]) is [None]. *)
Definition isValidFile (file : option File) : ValidationResult :=
  match file with
  | None => mkValidation false (Some "No file provided")
  | Some f =>
      if size f >? maxSize then
        mkValidation false (Some "File size exceeds 10MB limit")
      else if negb (validTypes_includes (type f)) && negb (endsWith (name f) ".svg") then
        mkValidation false (Some "File must be an SVG file")
      else
        mkValidation true None
  end.

End Validators.

(** ** src/lib/svgExtractor.js *)

Module SvgExtractor.
Import Js.

(** An element of the parsed document: its attributes, in source order. *)
Record Element : Type := mkElement {
  attributes : list (string * string)
}.

(** [img.getAttribute(name)]: the value of the first attribute of that
    name, [null] when there is none. *)
Fixpoint lookupAttribute (attrs : list (string * string)) (name : string) : option string :=
  match attrs with
  | [] => None
  | (k, v) :: rest => if String.eqb k name then Some v else lookupAttribute rest name
  end.

Definition getAttribute (img : Element) (name : string) : option string :=
  lookupAttribute (attributes img) name.

(** What the extractor asks of the document [DOMParser] returns:
    whether [querySelector('parsererror')] finds a node, and the node list
    of [querySelectorAll('image')], which is in document order. *)
Record Document : Type := mkDocument {
  parsererror : bool;
  imageElements : list Element
}.

Record ExtractedImage : Type := mkImage {
  dataUrl : string;
  format : option string;
  index : Z;
  size : Z;
  id : string
}.

Section Extractor.

(** [new DOMParser().parseFromString(svgContent, 'image/svg+xml')] *)
Variable parseFromString : string -> Document.

(** [Date.now()] as read while the element at a given position is
    processed. *)
Variable Date_now : Z -> Z.

(** [href.split(';')[0].split(':')[1]] *)
Definition formatOf (href : string) : option string :=
  nth_error (split ":" (hd "" (split ";" href))) 1.

(** [href.split(',')[1] || ''] *)
Definition base64DataOf (href : string) : string :=
  orString (nth_error (split "," href) 1) "".

(** The body of the [try] block for one element.  None of its operations
    can throw on a string, so the [catch] branch is never entered. *)
Definition buildImage (href : string) (index : Z) : ExtractedImage :=
  let format := formatOf href in
  let base64Data := base64DataOf href in
  let estimatedSize := floorDiv (length base64Data * 3) 4 in
  let id := "img-" ++ numberToString (Date_now index) ++ "-" ++ numberToString index in
  mkImage href format index estimatedSize id.

(** [img.getAttribute('href') || img.getAttribute('xlink:href')] *)
Definition hrefOf (img : Element) : option string :=
  or (getAttribute img "href") (getAttribute img "xlink:href").

(** [href && href.startsWith('data:image/')] *)
Definition isEmbedded (href : option string) : bool :=
  match href with
  | Some h => truthy href && startsWith h "data:image/"
  | None => false
  end.

(** The callback given to [imageElements.forEach]; [extractedImages] is
    the array it pushes to. *)
Definition forEachCallback (img : Element) (index : Z)
           (extractedImages : list ExtractedImage) : list ExtractedImage :=
  let href := hrefOf img in
  match href with
  | Some h =>
      if isEmbedded href then extractedImages ++ [buildImage h index]
      else extractedImages
  | None => extractedImages
  end.

(** [forEach] from position [index] on. *)
Fixpoint forEachFrom (index : Z) (elements : list Element)
         (extractedImages : list ExtractedImage) : list ExtractedImage :=
  match elements with
  | [] => extractedImages
  | img :: rest =>
      forEachFrom (index + 1) rest (forEachCallback img index extractedImages)
  end.

(** [extractImages(svgContent)] *)
Definition extractImages (svgContent : string) : result (list ExtractedImage) :=
  let validation := Validators.isValidSvg svgContent in
  if negb (Validators.valid validation) then
    Throw (newError (Validators.error validation))
  else
    let doc := parseFromString svgContent in
    if parsererror doc then
      Throw (ParseError "Failed to parse SVG content. The SVG may be malformed.")
    else
      Ok (forEachFrom 0 (imageElements doc) []).

(** [countImages(svgContent)] *)
Definition countImages (svgContent : string) : result Z :=
  tryCatch
    (images <- extractImages svgContent ;;
     Ok (Z.of_nat (List.length images)))
    (fun _ => Ok 0).

End Extractor.

End SvgExtractor.

(** ** src/lib/zipGenerator.js *)

Module ZipGenerator.
Import Js.

(** An element of the [images] array, as far as the packager reads it.
    Either property may be missing: the tests pass [{}] and records
    without [dataUrl] payload. *)
Record ImageObject : Type := mkImageObject {
  dataUrl : option string;
  format : option string
}.

(** An [ExtractedImage] seen as an element of [images]. *)
Definition ofExtracted (r : SvgExtractor.ExtractedImage) : ImageObject :=
  mkImageObject (Some (SvgExtractor.dataUrl r)) (SvgExtractor.format r).

(** [generateFilename(image, index)] *)
Definition generateFilename (image : ImageObject) (index : Z) : string :=
  let format := orString (format image) "image/png" in
  let ext := orString (nth_error (split "/" format) 1) "png" in
  "image-" ++ numberToString (index + 1) ++ "." ++ ext.

(** [img.dataUrl?.split(',')[1]] *)
Definition base64DataOf (img : ImageObject) : option string :=
  match dataUrl img with
  | None => None
  | Some u => nth_error (split "," u) 1
  end.

(** The predicate given to [images.filter]; the warning it logs is left
    out. *)
Definition filterCallback (img : ImageObject) : bool :=
  let base64Data := base64DataOf img in
  if negb (truthy base64Data) || (length (orString base64Data "") =? 0) then false
  else true.

(** A call [zip.file(filename, base64Data, { base64: true })]. *)
Definition ZipEntry : Type := (string * option string)%type.

(** [validImages.forEach] from position [index] on; [zip] is the list of
    entries added so far.  Reading [split] off a missing [dataUrl] throws. *)
Fixpoint addFilesFrom (index : Z) (validImages : list ImageObject)
         (zip : list ZipEntry) : result (list ZipEntry) :=
  match validImages with
  | [] => Ok zip
  | img :: rest =>
      let filename := generateFilename img index in
      match dataUrl img with
      | None => Throw (TypeError "Cannot read properties of undefined (reading 'split')")
      | Some u =>
          addFilesFrom (index + 1) rest (zip ++ [(filename, nth_error (split "," u) 1)])
      end
  end.

Section Packager.

Variable Blob : Type.

(** [zip.generateAsync(options, onUpdate)] of the JSZip library, for the
    entries added: the [metadata.percent] values it passes to [onUpdate],
    in order, and then the blob it resolves to or the error it rejects
    with. *)
Variable generateAsync : list ZipEntry -> list Q * result Blob.

(** The state the caller's progress callback acts on. *)
Variable St : Type.

(** The [onUpdate] function handed to JSZip. *)
Definition onUpdate (progressCallback : option (Z -> St -> St))
           (st : St) (percent : Q) : St :=
  match progressCallback with
  | Some callback => callback (Math_round percent) st
  | None => st
  end.

(** The body of the [try] block. *)
Definition assemble (images : list ImageObject)
           (progressCallback : option (Z -> St -> St)) (st : St) : result Blob * St :=
  let validImages := filter filterCallback images in
  if Z.of_nat (List.length validImages) =? 0 then
    (Throw (Error "No valid images to include in ZIP"), st)
  else
    match addFilesFrom 0 validImages [] with
    | Throw e => (Throw e, st)
    | Ok zip =>
        let '(updates, blob) := generateAsync zip in
        (blob, fold_left (onUpdate progressCallback) updates st)
    end.

(** [generateZip(images, progressCallback)]; the rejection of the
    promise is the [Throw] case. *)
Definition generateZip (images : option (list ImageObject))
           (progressCallback : option (Z -> St -> St)) (st : St) : result Blob * St :=
  match images with
  | None => (Throw (Error "No images provided for ZIP generation"), st)
  | Some imgs =>
      if Z.of_nat (List.length imgs) =? 0 then
        (Throw (Error "No images provided for ZIP generation"), st)
      else
        let '(r, st') := assemble imgs progressCallback st in
        (tryCatch r (fun _ => Throw (Error ERROR_MESSAGES.ZIP_GENERATION_FAILED)), st')
  end.

End Packager.

(** The progress callback of the test suite: it appends each value to an
    array. *)
Definition pushCall (percent : Z) (progressCalls : list Z) : list Z :=
  progressCalls ++ [percent].

End ZipGenerator.

(** ** Vocabulary of the statements *)

Module Spec.
Import Js.

(** [t] occurs in [s] as a substring. *)
Definition contains (s t : string) : Prop :=
  exists a b, s = a ++ t ++ b.

(** [t] is a suffix of [s]. *)
Definition hasSuffix (s t : string) : Prop :=
  exists a, s = a ++ t.

(** The code unit [c] occurs in [s]. *)
Fixpoint occurs (c : ascii) (s : string) : bool :=
  match s with
  | EmptyString => false
  | String d r => Ascii.eqb d c || occurs c r
  end.

(** Every code unit of [s] is white space. *)
Fixpoint allWhiteSpace (s : string) : bool :=
  match s with
  | EmptyString => true
  | String c r => isWhiteSpace c && allWhiteSpace r
  end.

(** An image element is embedded when the reference the extractor reads
    off it is a [data:image/] URL; any other image element is skipped. *)
Definition embedded (img : SvgExtractor.Element) : bool :=
  SvgExtractor.isEmbedded (SvgExtractor.hrefOf img).

Definition noElement : SvgExtractor.Element := SvgExtractor.mkElement [].

(** The positions, among all image elements, of the embedded ones. *)
Definition embeddedPositions (elements : list SvgExtractor.Element) : list nat :=
  filter (fun i => embedded (nth i elements noElement)) (seq 0 (List.length elements)).

(** The reference of the element at position [i]. *)
Definition referenceAt (elements : list SvgExtractor.Element) (i : nat) : string :=
  orString (SvgExtractor.hrefOf (nth i elements noElement)) "".

(** The file name as the specification words it: the extension is the
    text after the first "/" of [format], and "png" when [format] is
    absent. *)
Definition specFilename (image : ZipGenerator.ImageObject) (index : Z)
           (filename : string) : Prop :=
  match ZipGenerator.format image with
  | None => filename = "image-" ++ numberToString (index + 1) ++ ".png"
  | Some f =>
      forall a b, f = a ++ "/" ++ b -> occurs "/" a = false ->
                  filename = "image-" ++ numberToString (index + 1) ++ "." ++ b
  end.

(** The fallback text of [handleError]. *)
Definition unexpected : string := "An unexpected error occurred. Please try again.".

(** The record indexes are 0, 1, ..., N-1 in order. *)
Definition contiguous (records : list SvgExtractor.ExtractedImage) : Prop :=
  map SvgExtractor.index records = map Z.of_nat (seq 0 (List.length records)).

(** The length of the padded base64 encoding of [n] bytes. *)
Definition base64Length (n : nat) : nat := (4 * ((n + 2) / 3))%nat.

(** *** Test doubles

    The document of the test "should ignore external image references":
    an external reference followed by an embedded one. *)
Definition mixedSvg : string :=
  "<svg><image href='https://example.com/image.png' /><image href='data:image/png;base64,ABC123' /></svg>".

Definition mixedDocument : SvgExtractor.Document :=
  SvgExtractor.mkDocument false
    [ SvgExtractor.mkElement [("href", "https://example.com/image.png")];
      SvgExtractor.mkElement [("href", "data:image/png;base64,ABC123")] ].

(** The payload of the test "should estimate image size correctly". *)
Definition pixelPayload : string :=
  "iVBORw0KGgoAAAANSUhEUgAAAAEAAAABCAYAAAAfFcSJAAAADUlEQVR42mP8z8DwHwAFBQIAX8jx0gAAAABJRU5ErkJggg==".

Definition pixelSvg : string :=
  "<svg><image href='data:image/png;base64," ++ pixelPayload ++ "' /></svg>".

Definition pixelDocument : SvgExtractor.Document :=
  SvgExtractor.mkDocument false
    [ SvgExtractor.mkElement [("href", "data:image/png;base64," ++ pixelPayload)] ].

(** The base64 encoding of 68 zero bytes. *)
Definition zeros68Payload : string :=
  "AAAAAAAAAAAAAAAAAAAAAAAAAAAAAAAAAAAAAAAAAAAAAAAAAAAAAAAAAAAAAAAAAAAAAAAAAAAAAAAAAAAAAAAAAAA=".

Definition zeros68Document : SvgExtractor.Document :=
  SvgExtractor.mkDocument false
    [ SvgExtractor.mkElement [("href", "data:image/png;base64," ++ zeros68Payload)] ].

Definition zeros68Svg : string :=
  "<svg><image href='data:image/png;base64," ++ zeros68Payload ++ "' /></svg>".

(** An element whose [href] is empty and whose [xlink:href] is embedded. *)
Definition legacySvg : string :=
  "<svg><image href='' xlink:href='data:image/gif;base64,R0lGOD' /></svg>".

Definition legacyDocument : SvgExtractor.Document :=
  SvgExtractor.mkDocument false
    [ SvgExtractor.mkElement [("href", ""); ("xlink:href", "data:image/gif;base64,R0lGOD")] ].

(** A parser that knows these documents and reports a parser error on
    any other text. *)
Definition testParser (svgContent : string) : SvgExtractor.Document :=
  if String.eqb svgContent mixedSvg then mixedDocument
  else if String.eqb svgContent pixelSvg then pixelDocument
  else if String.eqb svgContent zeros68Svg then zeros68Document
  else if String.eqb svgContent legacySvg then legacyDocument
  else SvgExtractor.mkDocument true [].

(** A clock that stands still. *)
Definition testClock (index : Z) : Z := 1700000000000.

(** An archive library for the examples: the blob is the list of entries,
    and progress is reported at the half and at the end. *)
Definition testGenerateAsync (zip : list ZipGenerator.ZipEntry)
  : list Q * result (list ZipGenerator.ZipEntry) :=
  ([100 # 2; 100 # 1]%Q, Ok zip).

(** What the packager relies on from [generateAsync]: when it resolves,
    it has called [onUpdate] at least once, with percentages between 0
    and 100, the last of them 100. *)
Definition progressContract {Blob : Type}
           (generateAsync : list ZipGenerator.ZipEntry -> list Q * result Blob) : Prop :=
  forall zip updates blob,
    generateAsync zip = (updates, Ok blob) ->
    updates <> []
    /\ (List.last updates 0 == 100)%Q
    /\ Forall (fun u => 0 <= u <= 100)%Q updates.

End Spec.

(** ** lib/validators (isValidUrl) and lib/urlFetcher *)

Module UrlFetcher.
Import Js.

(** A value a promise of the host rejects with: a [DOMException] whose
    [name] is 'AbortError', or an instance of one of the error classes. *)
Inductive rejection : Type :=
| AbortError (message : string)
| Failure (e : error).

Inductive settled (A : Type) : Type :=
| Resolved (a : A)
| Rejected (r : rejection).
Arguments Resolved {A} a.
Arguments Rejected {A} r.

(** The [Response] fields the fetcher reads; [text] is what
    [await response.text()] settles to. *)
Record Response : Type := mkResponse {
  ok : bool;
  status : Z;
  statusText : string;
  text : settled string
}.

(** What the fetcher does that the caller can observe from outside: a call
    to [fetch] in a given attempt, and a pause of so many milliseconds
    before a retry. *)
Inductive Event : Type :=
| Fetch (attempt : Z)
| Wait (milliseconds : Z).

(** How the returned promise settles: with the content, or with the thrown
    value, where [None] is [undefined]. *)
Inductive outcome : Type :=
| Returns (content : string)
| Throws (value : option error).

Section Fetcher.

(** [new URL(url).protocol], and nothing when the constructor throws. *)
Variable URL_protocol : string -> option string.

(** What [fetch(url, ...)] settles to in a given attempt; an abort by the
    timeout timer is a rejection with [AbortError]. *)
Variable fetch : string -> Z -> settled Response.

(** [isValidUrl(url)] *)
Definition isValidUrl (url : string) : bool :=
  match URL_protocol url with
  | Some protocol => String.eqb protocol "http:" || String.eqb protocol "https:"
  | None => false
  end.

(** The inner [catch]: an abort becomes a timeout FetchError, a TypeError
    that mentions "fetch" becomes a CORS FetchError, anything else is
    thrown again. *)
Definition innerCatch (url : string) (r : rejection) : result string :=
  match r with
  | AbortError _ => Throw (FetchError ERROR_MESSAGES.TIMEOUT_ERROR (Some url) None)
  | Failure (TypeError m) =>
      if includes m "fetch" then Throw (FetchError ERROR_MESSAGES.CORS_ERROR (Some url) None)
      else Throw (TypeError m)
  | Failure e => Throw e
  end.

(** The inner [try] with its [catch], for one attempt. *)
Definition attemptOnce (url : string) (attempt : Z) : result string :=
  match fetch url attempt with
  | Rejected r => innerCatch url r
  | Resolved response =>
      if negb (ok response) then
        innerCatch url
          (Failure (FetchError
                      ("HTTP " ++ numberToString (status response) ++ ": "
                               ++ statusText response)
                      (Some url) (Some (status response))))
      else
        match text response with
        | Rejected r => innerCatch url r
        | Resolved content =>
            if negb (includes content "<svg") then
              innerCatch url
                (Failure (FetchError "URL did not return SVG content"
                                     (Some url) (Some (status response))))
            else Ok content
        end
  end.

(** [error instanceof ValidationError] *)
Definition isValidationError (e : error) : bool :=
  match e with
  | ValidationError _ _ => true
  | _ => false
  end.

(** The [for] loop from [attempt] on; [remaining] is the number of
    iterations left, [retries - attempt + 1].  When none is left the loop
    is over and [lastError] is thrown. *)
Fixpoint retryLoop (url : string) (retries : Z) (remaining : nat) (attempt : Z)
         (lastError : option error) (log : list Event) : outcome * list Event :=
  match remaining with
  | O => (Throws lastError, log)
  | S remaining' =>
      let log1 := (log ++ [Fetch attempt])%list in
      match attemptOnce url attempt with
      | Ok content => (Returns content, log1)
      | Throw e =>
          if isValidationError e || includes (message e) "CORS" then
            (Throws (Some e), log1)
          else if attempt <? retries then
            retryLoop url retries remaining' (attempt + 1) (Some e)
                      (log1 ++ [Wait (1000 * 2 ^ attempt)])%list
          else
            retryLoop url retries remaining' (attempt + 1) (Some e) log1
      end
  end.

(** [fetchSvgFromUrl(url, { retries })], with the events it causes.  The
    [timeout] option only sets the delay of the abort timer. *)
Definition fetchSvgFromUrl (url : string) (retries : Z) : outcome * list Event :=
  if negb (isValidUrl url) then
    (Throws (Some (ValidationError ERROR_MESSAGES.INVALID_URL (Some "url"))), [])
  else
    retryLoop url retries (Z.to_nat (retries + 1)) 0 None [].

End Fetcher.

End UrlFetcher.

(** ** lib/fileReader *)

Module FileReader.
Import Js.

(** A [progress] event of the [FileReader]. *)
Record ProgressEvent : Type := mkProgress {
  lengthComputable : bool;
  loaded : Z;
  total : Z
}.

(** How a read ends: [onload] with [reader.result], or [onerror] with
    [reader.error?.message]. *)
Inductive ReadEnd : Type :=
| Load (result : string)
| ReadError (message : option string).

Section Reader.

(** What [reader.readAsText(file)] leads to: the progress events, in
    order, and the end of the read. *)
Variable readAsText : Validators.File -> list ProgressEvent * ReadEnd.

(** [Math.round((event.loaded / event.total) * 100)], computed in double
    precision by the host. *)
Variable percentOf : Z -> Z -> Z.

(** The state the caller's progress callback acts on. *)
Variable St : Type.

(** [new ValidationError(message, field)] for [message] a string or
    [null]. *)
Definition newValidationError (message : option string) (field : string) : error :=
  ValidationError (match message with Some s => s | None => "null" end) (Some field).

(** [reader.onprogress], when a callback was given. *)
Definition onprogress (progressCallback : option (Z -> St -> St))
           (st : St) (event : ProgressEvent) : St :=
  match progressCallback with
  | Some callback =>
      if lengthComputable event then callback (percentOf (loaded event) (total event)) st
      else st
  | None => st
  end.

(** [readSvgFile(file, progressCallback)] *)
Definition readSvgFile (file : option Validators.File)
           (progressCallback : option (Z -> St -> St)) (st : St) : result string * St :=
  let validation := Validators.isValidFile file in
  if negb (Validators.valid validation) then
    (Throw (newValidationError (Validators.error validation) "file"), st)
  else
    match file with
    | None =>
        (Throw (TypeError "Failed to execute 'readAsText' on 'FileReader': parameter 1 is not of type 'Blob'."),
         st)
    | Some f =>
        let '(events, ending) := readAsText f in
        let st' := fold_left (onprogress progressCallback) events st in
        match ending with
        | Load content => (Ok content, st')
        | ReadError m =>
            (Throw (Error ("Failed to read file: " ++ orString m "Unknown error")), st')
        end
    end.

End Reader.

End FileReader.

(** ** lib/imageDownloader *)

Module ImageDownloader.
Import Js.

(** The anchor element that is clicked: its [href] and [download]. *)
Record Link : Type := mkLink {
  href : string;
  download : string
}.

(** [downloadSingleImage(image, customFilename)]: the link it clicks.  The
    link is appended to [document.body] before the click and removed after
    it; that is left out.  Reading [split] off a missing [format] throws. *)
Definition downloadSingleImage (image : SvgExtractor.ExtractedImage)
           (customFilename : option string) : result Link :=
  filename <-
    (if truthy customFilename then Ok (orString customFilename "")
     else
       match SvgExtractor.format image with
       | None => Throw (TypeError "Cannot read properties of undefined (reading 'split')")
       | Some format =>
           let ext := orString (nth_error (split "/" format) 1) "png" in
           Ok ("image-" ++ numberToString (SvgExtractor.index image + 1) ++ "." ++ ext)
       end) ;;
  Ok (mkLink (SvgExtractor.dataUrl image) filename).

End ImageDownloader.

(** ** Vocabulary of the further statements *)

Module Terms.
Import Js.

(** The events of a run whose last [fetch] is the one of attempt [k]:
    each earlier attempt is followed by its pause, which doubles from
    1000 ms. *)
Fixpoint schedule (k : nat) : list UrlFetcher.Event :=
  match k with
  | O => [UrlFetcher.Fetch 0]
  | S k' =>
      (schedule k' ++ [UrlFetcher.Wait (1000 * 2 ^ Z.of_nat k');
                       UrlFetcher.Fetch (Z.of_nat k)])%list
  end.

(** The number of calls to [fetch] in a log. *)
Definition fetchCount (log : list UrlFetcher.Event) : nat :=
  List.length (filter (fun ev => match ev with UrlFetcher.Fetch _ => true | _ => false end) log).

(** The pauses of a log, in order. *)
Definition pauses (log : list UrlFetcher.Event) : list Z :=
  flat_map (fun ev => match ev with UrlFetcher.Wait ms => [ms] | _ => [] end) log.

(** An error the retry loop throws at once instead of trying again. *)
Definition final (e : error) : bool :=
  UrlFetcher.isValidationError e || includes (message e) "CORS".

(** The error a failed attempt throws. *)
Definition thrown (r : result string) : option error :=
  match r with
  | Throw e => Some e
  | Ok _ => None
  end.

(** An attempt fails with an error that lets the loop try again. *)
Definition retryable (r : result string) : bool :=
  match r with
  | Throw e => negb (final e)
  | Ok _ => false
  end.

(** The events before the [fetch] of attempt [k]. *)
Definition pending (k : nat) : list UrlFetcher.Event :=
  match k with
  | O => []
  | S k' => (schedule k' ++ [UrlFetcher.Wait (1000 * 2 ^ Z.of_nat k')])%list
  end.

(** The error the loop holds before attempt [k]. *)
Definition lastErrorBefore (attemptOnce : Z -> result string) (k : nat) : option error :=
  match k with
  | O => None
  | S k' => thrown (attemptOnce (Z.of_nat k'))
  end.

(** A URL parser for the examples: it knows two URLs. *)
Definition testProtocol (url : string) : option string :=
  if String.eqb url "https://example.com/image.svg" then Some "https:"
  else if String.eqb url "ftp://example.com/image.svg" then Some "ftp:"
  else None.

(** A host whose first two calls are aborted by the timer and whose third
    one answers with an SVG text. *)
Definition slowHost (url : string) (attempt : Z) : UrlFetcher.settled UrlFetcher.Response :=
  if attempt <? 2 then UrlFetcher.Rejected (UrlFetcher.AbortError "The operation was aborted.")
  else UrlFetcher.Resolved
         (UrlFetcher.mkResponse true 200 "OK" (UrlFetcher.Resolved Spec.mixedSvg)).

(** A host that is down: every call fails in the network layer. *)
Definition deadHost (url : string) (attempt : Z) : UrlFetcher.settled UrlFetcher.Response :=
  UrlFetcher.Rejected (UrlFetcher.Failure (TypeError "Failed to fetch")).

(** A host whose network layer fails with a message that does not mention
    "fetch". *)
Definition brokenHost (url : string) (attempt : Z) : UrlFetcher.settled UrlFetcher.Response :=
  UrlFetcher.Rejected (UrlFetcher.Failure (TypeError "Load failed")).

(** A host that never answers before the timer fires. *)
Definition stalledHost (url : string) (attempt : Z) : UrlFetcher.settled UrlFetcher.Response :=
  UrlFetcher.Rejected (UrlFetcher.AbortError "The operation was aborted.").

(** A host that always answers 503. *)
Definition busyHost (url : string) (attempt : Z) : UrlFetcher.settled UrlFetcher.Response :=
  UrlFetcher.Resolved
    (UrlFetcher.mkResponse false 503 "Service Unavailable" (UrlFetcher.Resolved "")).

(** A reader that reports the half and the whole and then loads. *)
Definition testReader (f : Validators.File)
  : list FileReader.ProgressEvent * FileReader.ReadEnd :=
  ([FileReader.mkProgress true (Validators.size f / 2) (Validators.size f);
    FileReader.mkProgress false 0 0;
    FileReader.mkProgress true (Validators.size f) (Validators.size f)],
   FileReader.Load Spec.mixedSvg).

(** Percentages for the examples, exact on the values used there. *)
Definition testPercent (loaded total : Z) : Z := (200 * loaded + total) / (2 * total).

(** The text after the first occurrence of [c], empty when there is
    none. *)
Fixpoint afterFirst (c : ascii) (s : string) : string :=
  match s with
  | EmptyString => EmptyString
  | String d r => if Ascii.eqb d c then r else afterFirst c r
  end.

(** The text before the first occurrence of [c], the whole text when there
    is none. *)
Fixpoint upTo (c : ascii) (s : string) : string :=
  match s with
  | EmptyString => EmptyString
  | String d r => if Ascii.eqb d c then EmptyString else String d (upTo c r)
  end.

(** The size as the specification words it: from the length of all the
    text after the first comma of the data URL. *)
Definition specSize (dataUrl : string) : Z :=
  (length (afterFirst "," dataUrl) * 3) / 4.

(** The payload the code measures: the text between the first comma and
    the next comma or the end. *)
Definition firstPayload (dataUrl : string) : string :=
  upTo "," (afterFirst "," dataUrl).

(** A character of base64 text: a letter, a digit, "+", "/" or the
    padding "=". *)
Definition isBase64Char (c : ascii) : bool :=
  let n := nat_of_ascii c in
  ((65 <=? n)%nat && (n <=? 90)%nat) || ((97 <=? n)%nat && (n <=? 122)%nat)
  || ((48 <=? n)%nat && (n <=? 57)%nat)
  || (n =? 43)%nat || (n =? 47)%nat || (n =? 61)%nat.

Fixpoint isBase64 (s : string) : bool :=
  match s with
  | EmptyString => true
  | String c r => isBase64Char c && isBase64 r
  end.

(** *** Further documents for the examples

    An element with an empty [href] and an embedded [xlink:href], in a
    document that declares the [xlink] prefix. *)
Definition xlinkSvg : string :=
  "<svg xmlns:xlink='http://www.w3.org/1999/xlink'><image href='' xlink:href='data:image/gif;base64,R0lGOD' /></svg>".

Definition xlinkDocument : SvgExtractor.Document :=
  SvgExtractor.mkDocument false
    [ SvgExtractor.mkElement [("href", ""); ("xlink:href", "data:image/gif;base64,R0lGOD")] ].

(** The document of the test "should assign unique IDs to images". *)
Definition twoImagesSvg : string :=
  "<svg><image href='data:image/png;base64,ABC' /><image href='data:image/png;base64,XYZ' /></svg>".

Definition twoImagesDocument : SvgExtractor.Document :=
  SvgExtractor.mkDocument false
    [ SvgExtractor.mkElement [("href", "data:image/png;base64,ABC")];
      SvgExtractor.mkElement [("href", "data:image/png;base64,XYZ")] ].

(** A data URL with a second comma. *)
Definition commaSvg : string :=
  "<svg><image href='data:image/png;base64,AAAA,BBBB' /></svg>".

Definition commaDocument : SvgExtractor.Document :=
  SvgExtractor.mkDocument false
    [ SvgExtractor.mkElement [("href", "data:image/png;base64,AAAA,BBBB")] ].

(** A parser that knows these documents and the one of 68 zero bytes, and
    reports a parser error on any other text. *)
Definition exampleParser (svgContent : string) : SvgExtractor.Document :=
  if String.eqb svgContent xlinkSvg then xlinkDocument
  else if String.eqb svgContent twoImagesSvg then twoImagesDocument
  else if String.eqb svgContent commaSvg then commaDocument
  else if String.eqb svgContent Spec.zeros68Svg then Spec.zeros68Document
  else SvgExtractor.mkDocument true [].

End Terms.

(** * Properties *)

(** ** Facts about the string primitives *)

Module JsFacts.
Import Js Spec.

Lemma startsWith_app (p r : string) : startsWith (p ++ r) p = true.
Proof.
  induction p as [|c p IH]; simpl.
  - reflexivity.
  - rewrite Ascii.eqb_refl. exact IH.
Qed.

Lemma startsWith_inv (s p : string) :
  startsWith s p = true -> exists r, s = p ++ r.
Proof.
  revert s. induction p as [|c p IH]; intros s H.
  - exists s. reflexivity.
  - destruct s as [|d s]; simpl in H; [discriminate|].
    apply andb_true_iff in H. destruct H as [Hc Hs].
    apply Ascii.eqb_eq in Hc. subst d.
    destruct (IH _ Hs) as [r ->]. exists r. reflexivity.
Qed.

Lemma includes_startsWith (s t : string) :
  startsWith s t = true -> includes s t = true.
Proof.
  intros H. destruct s; simpl; rewrite H; reflexivity.
Qed.

Lemma includes_contains (s t : string) :
  includes s t = true <-> contains s t.
Proof.
  split.
  - induction s as [|c s IH]; simpl; intros H.
    + rewrite orb_false_r in H. apply startsWith_inv in H.
      destruct H as [r Hr]. exists "", r. exact Hr.
    + apply orb_true_iff in H. destruct H as [H|H].
      * apply startsWith_inv in H. destruct H as [r Hr].
        exists "", r. exact Hr.
      * destruct (IH H) as (a & b & ->). exists (String c a), b. reflexivity.
  - intros (a & b & ->). induction a as [|c a IH]; simpl.
    + apply includes_startsWith, startsWith_app.
    + rewrite IH. apply orb_true_r.
Qed.

Lemma includes_false (s t : string) :
  includes s t = false <-> ~ contains s t.
Proof.
  rewrite <- includes_contains. destruct (includes s t); split; intros H.
  - discriminate.
  - exfalso. apply H. reflexivity.
  - discriminate.
  - reflexivity.
Qed.

Lemma endsWith_nil (t : string) : endsWith "" t = String.eqb "" t.
Proof. simpl. apply orb_false_r. Qed.

Lemma endsWith_cons (c : ascii) (s t : string) :
  endsWith (String c s) t = String.eqb (String c s) t || endsWith s t.
Proof. reflexivity. Qed.

Lemma endsWith_hasSuffix (s t : string) :
  endsWith s t = true <-> hasSuffix s t.
Proof.
  split.
  - induction s as [|c s IH]; intros H.
    + rewrite endsWith_nil in H. apply String.eqb_eq in H.
      exists "". exact H.
    + rewrite endsWith_cons in H. apply orb_true_iff in H. destruct H as [H|H].
      * apply String.eqb_eq in H. exists "". exact H.
      * destruct (IH H) as [a ->]. exists (String c a). reflexivity.
  - intros [a ->]. induction a as [|c a IH].
    + change ("" ++ t) with t. destruct t.
      * reflexivity.
      * rewrite endsWith_cons, String.eqb_refl. reflexivity.
    + change (String c a ++ t) with (String c (a ++ t)).
      rewrite endsWith_cons, IH. apply orb_true_r.
Qed.

Lemma endsWith_hasSuffix_false (s t : string) :
  endsWith s t = false -> ~ hasSuffix s t.
Proof.
  intros H Hs. apply endsWith_hasSuffix in Hs. congruence.
Qed.

Lemma orString_nonempty (s d : string) : s <> "" -> orString (Some s) d = s.
Proof.
  intros H. unfold orString. destruct (String.eqb_spec s ""); congruence.
Qed.

End JsFacts.

(** ** Validators *)

Module ValidatorsFacts.
Import Js Spec Validators JsFacts.

Lemma validTypes_includes_iff (t : string) :
  validTypes_includes t = true <->
  t = "image/svg+xml" \/ t = "text/xml" \/ t = "application/xml".
Proof.
  unfold validTypes_includes, validTypes. cbn [existsb].
  rewrite !orb_true_iff, !String.eqb_eq. intuition discriminate.
Qed.

Lemma maxSize_value : maxSize = 10485760.
Proof. reflexivity. Qed.

(** C6.  [isValidFile] answers "No file provided" for an absent handle;
    otherwise "File size exceeds 10MB limit" when the size is above
    10,485,760 bytes; otherwise "File must be an SVG file" unless the
    content type is one of the three XML types or the name ends in ".svg";
    otherwise it is valid with no error.  A handle of 11,534,336 bytes and
    type image/svg+xml gets the size message, and one of 100 bytes, empty
    type and a name ending in ".svg" is valid. *)
Theorem isValidFile_cases :
  isValidFile None = mkValidation false (Some "No file provided")
  /\ (forall f, size f > 10485760 ->
        isValidFile (Some f) = mkValidation false (Some "File size exceeds 10MB limit"))
  /\ (forall f, size f <= 10485760 ->
        type f <> "image/svg+xml" -> type f <> "text/xml" ->
        type f <> "application/xml" -> ~ hasSuffix (name f) ".svg" ->
        isValidFile (Some f) = mkValidation false (Some "File must be an SVG file"))
  /\ (forall f, size f <= 10485760 ->
        type f = "image/svg+xml" \/ type f = "text/xml" \/
        type f = "application/xml" \/ hasSuffix (name f) ".svg" ->
        isValidFile (Some f) = mkValidation true None)
  /\ (forall n, isValidFile (Some (mkFile 11534336 "image/svg+xml" n))
                = mkValidation false (Some "File size exceeds 10MB limit"))
  /\ (forall p, isValidFile (Some (mkFile 100 "" (p ++ ".svg")))
                = mkValidation true None).
Proof.
  assert (Hbig : forall f, size f > 10485760 ->
            isValidFile (Some f) = mkValidation false (Some "File size exceeds 10MB limit")).
  { intros f H. unfold isValidFile. rewrite maxSize_value.
    destruct (Z.gtb_spec (size f) 10485760) as [_|Hle]; [reflexivity|lia]. }
  assert (Hok : forall f, size f <= 10485760 ->
            type f = "image/svg+xml" \/ type f = "text/xml" \/
            type f = "application/xml" \/ hasSuffix (name f) ".svg" ->
            isValidFile (Some f) = mkValidation true None).
  { intros f Hs H. unfold isValidFile. rewrite maxSize_value.
    destruct (Z.gtb_spec (size f) 10485760) as [Hgt|_]; [lia|].
    destruct (validTypes_includes (type f)) eqn:Et; [reflexivity|].
    destruct (endsWith (name f) ".svg") eqn:En; [reflexivity|].
    exfalso. destruct H as [H|[H|[H|H]]].
    - assert (validTypes_includes (type f) = true)
        by (apply validTypes_includes_iff; tauto). congruence.
    - assert (validTypes_includes (type f) = true)
        by (apply validTypes_includes_iff; tauto). congruence.
    - assert (validTypes_includes (type f) = true)
        by (apply validTypes_includes_iff; tauto). congruence.
    - apply endsWith_hasSuffix in H. congruence. }
  split; [reflexivity|]. split; [exact Hbig|]. split; [|split; [exact Hok|split]].
  - intros f Hs H1 H2 H3 Hn. unfold isValidFile. rewrite maxSize_value.
    destruct (Z.gtb_spec (size f) 10485760) as [Hgt|_]; [lia|].
    destruct (validTypes_includes (type f)) eqn:Et.
    + apply validTypes_includes_iff in Et. tauto.
    + destruct (endsWith (name f) ".svg") eqn:En; [|reflexivity].
      apply endsWith_hasSuffix in En. contradiction.
  - intros n. apply Hbig. simpl. lia.
  - intros p. apply Hok; simpl; [lia|].
    right; right; right. exists p. reflexivity.
Qed.

Lemma isValidFile_cases_witness :
  isValidFile (Some (mkFile 20000000 "image/svg+xml" "large.svg"))
    = mkValidation false (Some "File size exceeds 10MB limit")
  /\ isValidFile (Some (mkFile 7 "image/png" "test.png"))
    = mkValidation false (Some "File must be an SVG file")
  /\ isValidFile (Some (mkFile 11 "text/xml" "drawing.xml"))
    = mkValidation true None.
Proof.
  destruct isValidFile_cases as (_ & Hbig & Hbad & Hok & _ & _).
  split; [|split].
  - apply Hbig. simpl. lia.
  - apply Hbad; simpl; try lia; try discriminate.
    intros [a Ha]. apply endsWith_hasSuffix_false with (s := "test.png") (t := ".svg").
    + reflexivity.
    + exists a. exact Ha.
  - apply Hok; simpl; [lia|]. right; left. reflexivity.
Defined.

End ValidatorsFacts.

(** ** Error translation *)

Module ErrorHandlerFacts.
Import Js Spec ErrorHandler JsFacts.

Lemma includes_either (m a b : string) :
  includes m a || includes m b = true <-> contains m a \/ contains m b.
Proof.
  rewrite orb_true_iff, !includes_contains. reflexivity.
Qed.

Lemma includes_neither (m a b : string) :
  ~ contains m a -> ~ contains m b -> includes m a || includes m b = false.
Proof.
  intros Ha Hb. apply orb_false_iff.
  split; apply includes_false; assumption.
Qed.

(** C4.  [handleError] is defined on every error value.  A
    ValidationError gives its own message.  A FetchError whose message
    contains "CORS" or "cors" gives the CORS text, whatever else the
    message contains; otherwise one containing "timeout" or "Timeout"
    gives the timeout text; any other FetchError gives its message, or
    the fetch-failure text when the message is empty.  A ParseError gives
    the parse-failure text whatever its message.  A TypeError whose
    message contains "fetch" gives the network-error text.  Every other
    error gives its own message, or the unexpected-error text when the
    message is empty. *)
Theorem handleError_cases :
  (forall e, exists text, handleError e = text)
  /\ (forall m field, handleError (ValidationError m field) = m)
  /\ (forall m url status, contains m "CORS" \/ contains m "cors" ->
        handleError (FetchError m url status) = ERROR_MESSAGES.CORS_ERROR)
  /\ (forall m url status, ~ contains m "CORS" -> ~ contains m "cors" ->
        contains m "timeout" \/ contains m "Timeout" ->
        handleError (FetchError m url status) = ERROR_MESSAGES.TIMEOUT_ERROR)
  /\ (forall m url status, ~ contains m "CORS" -> ~ contains m "cors" ->
        ~ contains m "timeout" -> ~ contains m "Timeout" ->
        handleError (FetchError m url status)
        = if String.eqb m "" then ERROR_MESSAGES.FETCH_FAILED else m)
  /\ (forall m, handleError (ParseError m) = ERROR_MESSAGES.PARSE_ERROR)
  /\ (forall m, contains m "fetch" ->
        handleError (TypeError m) = ERROR_MESSAGES.NETWORK_ERROR)
  /\ (forall m, ~ contains m "fetch" ->
        handleError (TypeError m) = if String.eqb m "" then unexpected else m)
  /\ (forall m, handleError (Error m) = if String.eqb m "" then unexpected else m).
Proof.
  repeat split.
  - intros e. exists (handleError e). reflexivity.
  - intros m url status H. unfold handleError.
    apply includes_either in H. rewrite H. reflexivity.
  - intros m url status H1 H2 H. unfold handleError.
    rewrite (includes_neither _ _ _ H1 H2).
    apply includes_either in H. rewrite H. reflexivity.
  - intros m url status H1 H2 H3 H4. unfold handleError.
    rewrite (includes_neither _ _ _ H1 H2), (includes_neither _ _ _ H3 H4).
    reflexivity.
  - intros m H. unfold handleError.
    apply includes_contains in H. rewrite H. reflexivity.
  - intros m H. unfold handleError.
    apply includes_false in H. rewrite H. reflexivity.
Qed.

Lemma handleError_cases_witness :
  handleError (FetchError "CORS policy blocked after timeout" None None)
    = ERROR_MESSAGES.CORS_ERROR
  /\ handleError (FetchError "Request timeout" None None) = ERROR_MESSAGES.TIMEOUT_ERROR
  /\ handleError (FetchError "HTTP 404: Not Found" None (Some 404)) = "HTTP 404: Not Found"
  /\ handleError (TypeError "fetch failed") = ERROR_MESSAGES.NETWORK_ERROR
  /\ handleError (TypeError "x is not a function") = "x is not a function".
Proof.
  destruct handleError_cases as (_ & _ & Hcors & Htime & Hfetch & _ & Hnet & Htype & _).
  split; [|split; [|split; [|split]]].
  - apply Hcors. left. apply includes_contains. reflexivity.
  - apply Htime.
    + apply includes_false. reflexivity.
    + apply includes_false. reflexivity.
    + left. apply includes_contains. reflexivity.
  - apply (Hfetch "HTTP 404: Not Found"); apply includes_false; reflexivity.
  - apply Hnet. apply includes_contains. reflexivity.
  - apply (Htype "x is not a function"). apply includes_false. reflexivity.
Defined.

End ErrorHandlerFacts.

(** ** [trim] and [split] *)

Module TrimSplitFacts.
Import Js Spec.

Lemma trimEnd_empty (s : string) :
  trimEnd s = "" <-> allWhiteSpace s = true.
Proof.
  induction s as [|c s IH]; simpl.
  - tauto.
  - destruct (trimEnd s) eqn:E.
    + destruct (isWhiteSpace c); simpl.
      * rewrite <- IH. tauto.
      * split; discriminate.
    + split; [discriminate|].
      intros H. apply andb_true_iff in H. destruct H as [_ H].
      apply IH in H. discriminate.
Qed.

Lemma trimStart_empty (s : string) :
  trimStart s = "" <-> allWhiteSpace s = true.
Proof.
  induction s as [|c s IH]; simpl.
  - tauto.
  - destruct (isWhiteSpace c); simpl.
    + exact IH.
    + split; discriminate.
Qed.

Lemma trimStart_head (s : string) (c : ascii) (r : string) :
  trimStart s = String c r -> isWhiteSpace c = false.
Proof.
  induction s as [|d s IH]; simpl.
  - discriminate.
  - destruct (isWhiteSpace d) eqn:E.
    + exact IH.
    + intros H. injection H as -> _. exact E.
Qed.

Lemma trim_empty (s : string) :
  trim s = "" <-> allWhiteSpace s = true.
Proof.
  unfold trim. rewrite trimEnd_empty. split.
  - intros H. apply trimStart_empty.
    destruct (trimStart s) as [|c r] eqn:E; [reflexivity|].
    apply trimStart_head in E. simpl in H. rewrite E in H. discriminate.
  - intros H. apply trimStart_empty in H. rewrite H. reflexivity.
Qed.

Lemma length_zero (s : string) : (length s =? 0) = true <-> s = "".
Proof.
  unfold length. rewrite Z.eqb_eq. destruct s; simpl; split; intros H;
    try reflexivity; try discriminate; lia.
Qed.

Lemma trim_length_zero (s : string) :
  (length (trim s) =? 0) = allWhiteSpace s.
Proof.
  destruct (allWhiteSpace s) eqn:E.
  - apply length_zero, trim_empty. exact E.
  - destruct (length (trim s) =? 0) eqn:L; [|reflexivity].
    apply length_zero, trim_empty in L. congruence.
Qed.

Lemma split_nonempty (sep : ascii) (s : string) : split sep s <> [].
Proof.
  destruct s as [|c r]; simpl.
  - discriminate.
  - destruct (Ascii.eqb c sep); [discriminate|].
    destruct (split sep r); discriminate.
Qed.

(** Without the separator there is one piece. *)
Lemma split_absent (sep : ascii) (s : string) :
  occurs sep s = false -> split sep s = [s].
Proof.
  induction s as [|c r IH]; simpl; intros H.
  - reflexivity.
  - apply orb_false_iff in H. destruct H as [Hc Hr].
    rewrite Hc, (IH Hr). reflexivity.
Qed.

(** The first piece ends at the first separator. *)
Lemma split_first (sep : ascii) (a b : string) :
  occurs sep a = false ->
  split sep (a ++ String sep b) = a :: split sep b.
Proof.
  induction a as [|c a IH]; simpl; intros H.
  - rewrite Ascii.eqb_refl. reflexivity.
  - apply orb_false_iff in H. destruct H as [Hc Ha].
    rewrite Hc, (IH Ha). reflexivity.
Qed.

(** The piece at position 1 is the text between the first separator and
    the next one, or the end. *)
Lemma split_second (sep : ascii) (a b : string) :
  occurs sep a = false -> occurs sep b = false ->
  nth_error (split sep (a ++ String sep b)) 1 = Some b.
Proof.
  intros Ha Hb. rewrite (split_first _ _ _ Ha), (split_absent _ _ Hb). reflexivity.
Qed.

Lemma split_second_of_three (sep : ascii) (a b c : string) :
  occurs sep a = false -> occurs sep b = false ->
  nth_error (split sep (a ++ String sep (b ++ String sep c))) 1 = Some b.
Proof.
  intros Ha Hb. rewrite (split_first _ _ _ Ha), (split_first _ _ _ Hb). reflexivity.
Qed.

Lemma split_second_absent (sep : ascii) (s : string) :
  occurs sep s = false -> nth_error (split sep s) 1 = None.
Proof.
  intros H. rewrite (split_absent _ _ H). reflexivity.
Qed.

End TrimSplitFacts.

(** ** The extractor *)

Module SvgExtractorFacts.
Import Js Spec SvgExtractor JsFacts TrimSplitFacts.
Local Open Scope list_scope.

(** *** The validation step *)

Lemma isValidSvg_blank (s : string) :
  allWhiteSpace s = true ->
  Validators.isValidSvg s = Validators.mkValidation false (Some "SVG content is empty").
Proof.
  intros H. unfold Validators.isValidSvg.
  rewrite trim_length_zero, H, orb_true_r. reflexivity.
Qed.

Lemma truthy_not_blank (s : string) :
  allWhiteSpace s = false -> truthy (Some s) = true.
Proof.
  destruct s; simpl; [discriminate|reflexivity].
Qed.

Lemma isValidSvg_no_tag (s : string) :
  allWhiteSpace s = false -> ~ contains s "<svg" ->
  Validators.isValidSvg s
  = Validators.mkValidation false (Some "Content does not appear to be valid SVG").
Proof.
  intros Hw Hc. unfold Validators.isValidSvg.
  rewrite trim_length_zero, Hw, (truthy_not_blank _ Hw).
  apply includes_false in Hc. rewrite Hc. reflexivity.
Qed.

Lemma isValidSvg_valid (s : string) :
  Validators.valid (Validators.isValidSvg s) = true <->
  allWhiteSpace s = false /\ contains s "<svg".
Proof.
  unfold Validators.isValidSvg. rewrite trim_length_zero.
  destruct (allWhiteSpace s) eqn:Hw.
  - rewrite orb_true_r. simpl. split; [discriminate|]. intros [H _]. discriminate.
  - rewrite (truthy_not_blank _ Hw). simpl.
    destruct (includes s "<svg") eqn:Hi; simpl.
    + apply includes_contains in Hi. tauto.
    + apply includes_false in Hi. split; [discriminate|]. intros [_ H]. contradiction.
Qed.

Lemma isValidSvg_invalid (s : string) :
  Validators.valid (Validators.isValidSvg s) = false ->
  allWhiteSpace s = true \/ (allWhiteSpace s = false /\ ~ contains s "<svg").
Proof.
  intros H. destruct (allWhiteSpace s) eqn:Hw; [left; reflexivity|right].
  split; [reflexivity|]. intros Hc.
  assert (Validators.valid (Validators.isValidSvg s) = true)
    by (apply isValidSvg_valid; split; assumption).
  congruence.
Qed.

Section Loop.

Variable parseFromString : string -> Document.
Variable Date_now : Z -> Z.


(** *** The loop *)

Lemma forEachCallback_cases (img : Element) (i : Z) (acc : list ExtractedImage) :
  forEachCallback Date_now img i acc
  = acc ++ (if embedded img then [buildImage Date_now (orString (hrefOf img) "") i] else []).
Proof.
  unfold forEachCallback, embedded.
  destruct (hrefOf img) as [h|] eqn:E.
  - destruct (isEmbedded (Some h)) eqn:Em.
    + unfold isEmbedded in Em. apply andb_true_iff in Em. destruct Em as [Ht _].
      unfold truthy in Ht. unfold orString.
      destruct (String.eqb h ""); [discriminate|reflexivity].
    + rewrite app_nil_r. reflexivity.
  - simpl. rewrite app_nil_r. reflexivity.
Qed.

Lemma forEachFrom_snoc (els : list Element) (x : Element) :
  forall i acc,
    forEachFrom Date_now i (els ++ [x]) acc
    = forEachCallback Date_now x (i + Z.of_nat (List.length els)) (forEachFrom Date_now i els acc).
Proof.
  induction els as [|e els IH]; intros i acc.
  - simpl. rewrite Z.add_0_r. reflexivity.
  - cbn [app SvgExtractor.forEachFrom List.length]. rewrite IH.
    f_equal. lia.
Qed.

Lemma forEachFrom_app (a b : list Element) :
  forall i acc,
    forEachFrom Date_now i (a ++ b) acc
    = forEachFrom Date_now (i + Z.of_nat (List.length a)) b (forEachFrom Date_now i a acc).
Proof.
  induction a as [|e a IH]; intros i acc.
  - simpl. rewrite Z.add_0_r. reflexivity.
  - cbn [app SvgExtractor.forEachFrom List.length]. rewrite IH.
    f_equal. lia.
Qed.

(** The loop only appends. *)
Lemma forEachFrom_extends (els : list Element) :
  forall i acc, exists new, forEachFrom Date_now i els acc = acc ++ new.
Proof.
  induction els as [|e els IH]; intros i acc.
  - exists []. simpl. rewrite app_nil_r. reflexivity.
  - simpl. destruct (IH (i + 1) (forEachCallback Date_now e i acc)) as [new Hn].
    rewrite Hn, forEachCallback_cases, <- app_assoc. eexists. reflexivity.
Qed.

(** *** Positions of the embedded elements *)

Lemma embeddedPositions_snoc (els : list Element) (x : Element) :
  embeddedPositions (els ++ [x])
  = embeddedPositions els ++ (if embedded x then [List.length els] else []).
Proof.
  unfold embeddedPositions.
  rewrite length_app. simpl List.length. rewrite Nat.add_1_r, seq_S, filter_app.
  simpl. f_equal.
  - apply filter_ext_in. intros i Hi. apply in_seq in Hi.
    rewrite app_nth1 by lia. reflexivity.
  - rewrite nth_middle. reflexivity.
Qed.

Lemma embeddedPositions_bound (els : list Element) (i : nat) :
  In i (embeddedPositions els) -> (i < List.length els)%nat.
Proof.
  unfold embeddedPositions. intros H. apply filter_In in H.
  destruct H as [H _]. apply in_seq in H. lia.
Qed.

Lemma embeddedPositions_count (els : list Element) :
  List.length (embeddedPositions els) = List.length (filter embedded els).
Proof.
  induction els as [|x els IH] using rev_ind.
  - reflexivity.
  - rewrite embeddedPositions_snoc, filter_app, !length_app, IH. simpl.
    destruct (embedded x); reflexivity.
Qed.

Lemma embeddedPositions_all (els : list Element) :
  forallb embedded els = true ->
  embeddedPositions els = seq 0 (List.length els).
Proof.
  induction els as [|x els IH] using rev_ind; intros H.
  - reflexivity.
  - rewrite forallb_app in H. apply andb_true_iff in H. destruct H as [Hl Hx].
    simpl in Hx. rewrite andb_true_r in Hx.
    rewrite embeddedPositions_snoc, (IH Hl), Hx, length_app. simpl.
    rewrite Nat.add_1_r, seq_S. reflexivity.
Qed.

Lemma embeddedPositions_sorted (els : list Element) :
  StronglySorted Z.lt (map Z.of_nat (embeddedPositions els)).
Proof.
  induction els as [|x els IH] using rev_ind.
  - constructor.
  - rewrite embeddedPositions_snoc. destruct (embedded x).
    + rewrite map_app. simpl.
      assert (Hb : Forall (fun z => z < Z.of_nat (List.length els))
                          (map Z.of_nat (embeddedPositions els))).
      { apply Forall_forall. intros z Hz. apply in_map_iff in Hz.
        destruct Hz as (i & <- & Hi). apply embeddedPositions_bound in Hi. lia. }
      revert IH Hb. generalize (map Z.of_nat (embeddedPositions els)).
      intros l. induction l as [|z l IHl]; intros Hs Hb.
      * repeat constructor.
      * inversion Hs; subst. inversion Hb; subst. constructor.
        -- apply IHl; assumption.
        -- apply Forall_app. split; [assumption|]. repeat constructor. assumption.
    + rewrite app_nil_r. exact IH.
Qed.

(** The records are the embedded elements, each with the position of
    its element among all image elements. *)
Lemma forEachFrom_records (els : list Element) :
  forEachFrom Date_now 0 els []
  = map (fun i => buildImage Date_now (referenceAt els i) (Z.of_nat i)) (embeddedPositions els).
Proof.
  induction els as [|x els IH] using rev_ind.
  - reflexivity.
  - rewrite forEachFrom_snoc, forEachCallback_cases, IH, embeddedPositions_snoc, map_app.
    f_equal.
    + apply map_ext_in. intros i Hi. apply embeddedPositions_bound in Hi.
      unfold referenceAt. rewrite app_nth1 by lia. reflexivity.
    + destruct (embedded x); [|reflexivity]. simpl.
      unfold referenceAt. rewrite nth_middle. reflexivity.
Qed.

Lemma extractImages_returns (s : string) :
  Validators.valid (Validators.isValidSvg s) = true ->
  parsererror (parseFromString s) = false ->
  extractImages parseFromString Date_now s = Ok (forEachFrom Date_now 0 (imageElements (parseFromString s)) []).
Proof.
  intros Hv Hp. unfold SvgExtractor.extractImages. rewrite Hv, Hp. reflexivity.
Qed.

Lemma extractImages_Ok (s : string) (recs : list ExtractedImage) :
  extractImages parseFromString Date_now s = Ok recs ->
  recs = forEachFrom Date_now 0 (imageElements (parseFromString s)) [].
Proof.
  unfold SvgExtractor.extractImages.
  destruct (Validators.valid (Validators.isValidSvg s)); simpl; [|discriminate].
  destruct (parsererror (parseFromString s)); [discriminate|].
  intros H. injection H as <-. reflexivity.
Qed.

End Loop.

End SvgExtractorFacts.

(** ** What [extractImages] and [countImages] guarantee *)

Module SvgExtractorProperties.
Import Js Spec Terms SvgExtractor JsFacts TrimSplitFacts SvgExtractorFacts.
Local Open Scope list_scope.

Lemma orString_empty_default (o : option string) (s : string) :
  o = Some s -> orString o "" = s.
Proof.
  intros ->. unfold orString. destruct (String.eqb_spec s ""); congruence.
Qed.

Lemma embedded_reference (img : Element) :
  embedded img = true ->
  hrefOf img = Some (orString (hrefOf img) "")
  /\ startsWith (orString (hrefOf img) "") "data:image/" = true.
Proof.
  unfold embedded, isEmbedded. destruct (hrefOf img) as [h|]; [|discriminate].
  intros H. apply andb_true_iff in H. destruct H as [_ H].
  rewrite (orString_empty_default (Some h) h eq_refl). split; [reflexivity|exact H].
Qed.

(** Every record comes out of [buildImage], from a [data:image/] URL. *)
Lemma record_shape parse now (s : string) (recs : list ExtractedImage) (r : ExtractedImage) :
  extractImages parse now s = Ok recs -> In r recs ->
  r = buildImage now (dataUrl r) (index r)
  /\ startsWith (dataUrl r) "data:image/" = true.
Proof.
  intros H Hin. apply extractImages_Ok in H. subst recs.
  rewrite forEachFrom_records in Hin. apply in_map_iff in Hin.
  destruct Hin as (i & <- & Hi). split; [reflexivity|]. simpl.
  unfold embeddedPositions in Hi. apply filter_In in Hi. destruct Hi as [_ Hi].
  apply embedded_reference in Hi. exact (proj2 Hi).
Qed.

(** C1, as the code has it.  When [extractImages] returns, it returns one
    record per embedded image element, in document order, and the index
    of a record is the position of its element among all image elements
    of the document, external ones included.  The indexes are therefore
    strictly increasing, and they are 0, 1, ..., N-1 when no image element
    is skipped. *)
Theorem extractImages_indices :
  forall parse now s recs,
    extractImages parse now s = Ok recs ->
    List.length recs = List.length (filter embedded (imageElements (parse s)))
    /\ map dataUrl recs
       = map (referenceAt (imageElements (parse s)))
             (embeddedPositions (imageElements (parse s)))
    /\ map index recs = map Z.of_nat (embeddedPositions (imageElements (parse s)))
    /\ StronglySorted Z.lt (map index recs)
    /\ (forallb embedded (imageElements (parse s)) = true -> contiguous recs).
Proof.
  intros parse now s recs H. apply extractImages_Ok in H.
  rewrite forEachFrom_records in H.
  assert (Hidx : map index recs
                 = map Z.of_nat (embeddedPositions (imageElements (parse s)))).
  { subst recs. rewrite map_map. reflexivity. }
  assert (Hlen : List.length recs
                 = List.length (embeddedPositions (imageElements (parse s)))).
  { subst recs. apply length_map. }
  split; [|split; [|split; [|split]]].
  - rewrite Hlen. apply embeddedPositions_count.
  - subst recs. rewrite map_map. reflexivity.
  - exact Hidx.
  - rewrite Hidx. apply embeddedPositions_sorted.
  - intros Hall. unfold contiguous. rewrite Hidx, Hlen.
    rewrite (embeddedPositions_all _ Hall), length_seq. reflexivity.
Qed.

Lemma extractImages_indices_witness :
  map index
      [mkImage "data:image/png;base64,ABC123" (Some "image/png") 1 4 "img-1700000000000-1"]
  = map Z.of_nat (embeddedPositions (imageElements (testParser mixedSvg))).
Proof.
  apply (extractImages_indices testParser testClock mixedSvg). reflexivity.
Defined.

(** C1, as stated, fails: in the document of the test "should ignore
    external image references" the one record has index 1, not 0. *)
Lemma extractImages_indices_counterexample :
  extractImages testParser testClock mixedSvg
  = Ok [mkImage "data:image/png;base64,ABC123" (Some "image/png") 1 4 "img-1700000000000-1"]
  /\ ~ contiguous
       [mkImage "data:image/png;base64,ABC123" (Some "image/png") 1 4 "img-1700000000000-1"].
Proof.
  split; [reflexivity|]. unfold contiguous. simpl. discriminate.
Qed.

(** C3, as the code has it.  When [isValidSvg] reports the input invalid,
    [extractImages] throws a plain [Error], not a [ValidationError],
    whose message is the validation's error string: "SVG content is
    empty" for empty or white-space-only input, and "Content does not
    appear to be valid SVG" for any other input without "<svg".  The
    parser plays no part in the outcome. *)
Theorem extractImages_validation_failure :
  forall parse now s,
    Validators.valid (Validators.isValidSvg s) = false ->
    extractImages parse now s
    = Throw (newError (Validators.error (Validators.isValidSvg s)))
    /\ (allWhiteSpace s = true ->
        extractImages parse now s = Throw (Error "SVG content is empty"))
    /\ (allWhiteSpace s = false ->
        ~ contains s "<svg"
        /\ extractImages parse now s
           = Throw (Error "Content does not appear to be valid SVG"))
    /\ (forall parse' now', extractImages parse' now' s = extractImages parse now s).
Proof.
  intros parse now s H.
  assert (Hall : forall p n, extractImages p n s
                   = Throw (newError (Validators.error (Validators.isValidSvg s)))).
  { intros p n. unfold extractImages. rewrite H. reflexivity. }
  split; [apply Hall|]. split; [|split].
  - intros Hw. rewrite Hall, (isValidSvg_blank _ Hw). reflexivity.
  - intros Hw. destruct (isValidSvg_invalid _ H) as [Hb|[_ Hc]]; [congruence|].
    split; [exact Hc|]. rewrite Hall, (isValidSvg_no_tag _ Hw Hc). reflexivity.
  - intros p n. rewrite !Hall. reflexivity.
Qed.

Lemma extractImages_validation_failure_witness :
  extractImages testParser testClock "<div>Not SVG</div>"
  = Throw (Error "Content does not appear to be valid SVG").
Proof.
  apply (extractImages_validation_failure testParser testClock "<div>Not SVG</div>");
    reflexivity.
Defined.

(** C3, as stated, fails: on the empty string the error thrown is a plain
    [Error]; no [ValidationError] is thrown. *)
Lemma extractImages_validation_counterexample :
  Validators.valid (Validators.isValidSvg "") = false
  /\ extractImages testParser testClock "" = Throw (Error "SVG content is empty")
  /\ forall m field,
       extractImages testParser testClock "" <> Throw (ValidationError m field).
Proof.
  split; [reflexivity|]. split; [reflexivity|]. intros m field. discriminate.
Qed.

(** C5.  [countImages] never throws.  It returns the number of records
    [extractImages] returns, and 0 when [extractImages] throws, whatever
    the error. *)
Theorem countImages_spec :
  forall parse now s,
    (exists n, countImages parse now s = Ok n)
    /\ (forall recs, extractImages parse now s = Ok recs ->
          countImages parse now s = Ok (Z.of_nat (List.length recs)))
    /\ (forall e, extractImages parse now s = Throw e ->
          countImages parse now s = Ok 0).
Proof.
  intros parse now s. unfold countImages.
  destruct (extractImages parse now s) as [recs|e]; simpl.
  - split; [eexists; reflexivity|]. split.
    + intros recs' H. injection H as <-. reflexivity.
    + intros e H. discriminate.
  - split; [eexists; reflexivity|]. split.
    + intros recs H. discriminate.
    + intros e' _. reflexivity.
Qed.

Lemma countImages_spec_witness :
  countImages testParser testClock mixedSvg = Ok 1
  /\ countImages testParser testClock "not svg" = Ok 0
  /\ countImages testParser testClock "<svg><image href='data:image/png;base64,ABC'></svg" = Ok 0.
Proof.
  split; [|split].
  - destruct (countImages_spec testParser testClock mixedSvg) as (_ & H & _).
    apply (H [mkImage "data:image/png;base64,ABC123" (Some "image/png") 1 4
                      "img-1700000000000-1"]).
    reflexivity.
  - destruct (countImages_spec testParser testClock "not svg") as (_ & _ & H).
    apply (H (Error "Content does not appear to be valid SVG")). reflexivity.
  - destruct (countImages_spec testParser testClock
                "<svg><image href='data:image/png;base64,ABC'></svg") as (_ & _ & H).
    apply (H (ParseError "Failed to parse SVG content. The SVG may be malformed.")).
    reflexivity.
Defined.

Lemma startsWith_data_truthy (u : string) :
  startsWith u "data:image/" = true -> truthy (Some u) = true.
Proof.
  destruct u; [discriminate|reflexivity].
Qed.

(** The records built before an element are as many as the embedded
    elements before it. *)
Lemma records_before now (pre : list Element) :
  List.length (forEachFrom now 0 pre []) = List.length (filter embedded pre).
Proof.
  rewrite forEachFrom_records, length_map. apply embeddedPositions_count.
Qed.

(** C10.  An image element whose [href] attribute is present but empty and
    whose [xlink:href] attribute is a [data:image/] URL is not skipped.
    The reference read off it is the [xlink:href] value; the callback
    pushes one record, whose data URL is that value; and in the list
    [extractImages] returns, the record that follows those of the embedded
    elements before it has that value as its data URL, the position of the
    element as its index, and the format and the size computed from that
    value. *)
Theorem href_empty_falls_back :
  forall parse now s pre img post u,
    Validators.valid (Validators.isValidSvg s) = true ->
    parsererror (parse s) = false ->
    imageElements (parse s) = pre ++ img :: post ->
    getAttribute img "href" = Some "" ->
    getAttribute img "xlink:href" = Some u ->
    startsWith u "data:image/" = true ->
    hrefOf img = Some u
    /\ (forall i acc,
          exists r, forEachCallback now img i acc = acc ++ [r]
                    /\ dataUrl r = u /\ index r = i)
    /\ exists recs r,
         extractImages parse now s = Ok recs
         /\ nth_error recs (List.length (filter embedded pre)) = Some r
         /\ dataUrl r = u
         /\ index r = Z.of_nat (List.length pre)
         /\ format r = formatOf u
         /\ size r = (length (base64DataOf u) * 3) / 4.
Proof.
  intros parse now s pre img post u Hv Hp Hels Hhref Hx Hu.
  assert (Href : hrefOf img = Some u).
  { unfold hrefOf, or. rewrite Hhref, Hx. reflexivity. }
  assert (Hcb : forall i acc, forEachCallback now img i acc = acc ++ [buildImage now u i]).
  { intros i acc. unfold forEachCallback. rewrite Href. unfold isEmbedded.
    rewrite (startsWith_data_truthy _ Hu), Hu. reflexivity. }
  split; [exact Href|]. split.
  - intros i acc. exists (buildImage now u i). rewrite Hcb. repeat split.
  - exists (forEachFrom now 0 (imageElements (parse s)) []),
           (buildImage now u (Z.of_nat (List.length pre))).
    split; [apply extractImages_returns; assumption|].
    split; [|repeat split].
    rewrite Hels, forEachFrom_app. cbn [forEachFrom]. rewrite Hcb, Z.add_0_l.
    destruct (forEachFrom_extends now post (Z.of_nat (List.length pre) + 1)
                (forEachFrom now 0 pre [] ++ [buildImage now u (Z.of_nat (List.length pre))]))
      as [new ->].
    rewrite <- records_before with (now := now).
    rewrite <- app_assoc. rewrite nth_error_app2 by lia.
    rewrite Nat.sub_diag. reflexivity.
Qed.

Lemma href_empty_falls_back_witness :
  exists recs r,
    extractImages exampleParser testClock xlinkSvg = Ok recs
    /\ nth_error recs 0 = Some r
    /\ dataUrl r = "data:image/gif;base64,R0lGOD"
    /\ index r = 0
    /\ format r = Some "image/gif"
    /\ size r = 4.
Proof.
  apply (href_empty_falls_back exampleParser testClock xlinkSvg []
           (mkElement [("href", ""); ("xlink:href", "data:image/gif;base64,R0lGOD")]) []);
    reflexivity.
Defined.

Lemma base64DataOf_payload (a p : string) :
  occurs "," a = false -> occurs "," p = false ->
  base64DataOf (a ++ "," ++ p)%string = p.
Proof.
  intros Ha Hp. unfold base64DataOf.
  change (a ++ "," ++ p)%string with (a ++ String "," p)%string.
  apply orString_empty_default, split_second; assumption.
Qed.

Lemma base64DataOf_no_comma (u : string) :
  occurs "," u = false -> base64DataOf u = "".
Proof.
  intros H. unfold base64DataOf. rewrite (split_second_absent _ _ H). reflexivity.
Qed.

Lemma split_hd_upTo (c : ascii) (s : string) : hd "" (split c s) = upTo c s.
Proof.
  induction s as [|d r IH]; simpl.
  - reflexivity.
  - destruct (Ascii.eqb d c); [reflexivity|].
    destruct (split c r) as [|h t] eqn:E.
    + exfalso. exact (split_nonempty _ _ E).
    + simpl in IH. simpl. rewrite IH. reflexivity.
Qed.

(** The piece at position 1 of a split is the text between the first
    separator and the next one or the end. *)
Lemma split_second_upTo (c : ascii) (s : string) :
  nth_error (split c s) 1
  = if occurs c s then Some (upTo c (afterFirst c s)) else None.
Proof.
  induction s as [|d r IH]; cbn [split occurs afterFirst].
  - reflexivity.
  - destruct (Ascii.eqb d c); cbn [orb].
    + rewrite <- split_hd_upTo. destruct (split c r) as [|h t] eqn:E.
      * exfalso. exact (split_nonempty _ _ E).
      * reflexivity.
    + destruct (split c r) as [|h t] eqn:E.
      * exfalso. exact (split_nonempty _ _ E).
      * exact IH.
Qed.

Lemma afterFirst_absent (c : ascii) (s : string) :
  occurs c s = false -> afterFirst c s = "".
Proof.
  induction s as [|d r IH]; simpl; intros H; [reflexivity|].
  apply orb_false_iff in H. destruct H as [Hd Hr]. rewrite Hd. exact (IH Hr).
Qed.

Lemma upTo_absent (c : ascii) (s : string) :
  occurs c s = false -> upTo c s = s.
Proof.
  induction s as [|d r IH]; simpl; intros H; [reflexivity|].
  apply orb_false_iff in H. destruct H as [Hd Hr]. rewrite Hd, (IH Hr). reflexivity.
Qed.

Lemma afterFirst_at (c : ascii) (a p : string) :
  occurs c a = false -> afterFirst c (a ++ String c p) = p.
Proof.
  induction a as [|d a IH]; simpl; intros H.
  - rewrite Ascii.eqb_refl. reflexivity.
  - apply orb_false_iff in H. destruct H as [Hd Ha]. rewrite Hd. exact (IH Ha).
Qed.

Lemma upTo_at (c : ascii) (p q : string) :
  occurs c p = false -> upTo c (p ++ String c q) = p.
Proof.
  induction p as [|d p IH]; simpl; intros H.
  - rewrite Ascii.eqb_refl. reflexivity.
  - apply orb_false_iff in H. destruct H as [Hd Hp]. rewrite Hd, (IH Hp). reflexivity.
Qed.

(** The payload the extractor measures. *)
Lemma base64DataOf_firstPayload (u : string) : base64DataOf u = firstPayload u.
Proof.
  unfold base64DataOf, firstPayload. rewrite split_second_upTo.
  destruct (occurs "," u) eqn:E.
  - apply orString_empty_default. reflexivity.
  - rewrite (afterFirst_absent _ _ E). reflexivity.
Qed.

(** Base64 text holds no comma. *)
Lemma isBase64_no_comma (p : string) : isBase64 p = true -> occurs "," p = false.
Proof.
  induction p as [|c p IH]; simpl; intros H; [reflexivity|].
  apply andb_true_iff in H. destruct H as [Hc Hp]. rewrite (IH Hp), orb_false_r.
  destruct (Ascii.eqb_spec c ",") as [->|_]; [discriminate Hc|reflexivity].
Qed.

(** C8, as the code has it.  The size of every record [extractImages]
    returns is floor(payloadLength * 3 / 4), where payloadLength is the
    length of the text between the first comma of the record's data URL
    and the next comma or the end, and 0 when the data URL has no comma.
    That text is all the text after the first comma when no further comma
    follows, as with a base64 payload.  For a data URL whose text after
    the first comma is the base64 encoding of 68 bytes, 92 characters
    long, the size is 69, strictly between 0 and 200. *)
Theorem size_estimate :
  forall parse now s recs r,
    extractImages parse now s = Ok recs -> In r recs ->
    size r = (length (firstPayload (dataUrl r)) * 3) / 4
    /\ (forall a p q, dataUrl r = (a ++ "," ++ p ++ "," ++ q)%string ->
          occurs "," a = false -> occurs "," p = false ->
          size r = (Z.of_nat (String.length p) * 3) / 4)
    /\ (occurs "," (afterFirst "," (dataUrl r)) = false ->
        size r = specSize (dataUrl r))
    /\ (occurs "," (dataUrl r) = false -> size r = 0)
    /\ (forall a p, dataUrl r = (a ++ "," ++ p)%string ->
          occurs "," a = false -> isBase64 p = true ->
          String.length p = base64Length 68 ->
          size r = 69 /\ 0 < size r < 200).
Proof.
  intros parse now s recs r H Hin.
  destruct (record_shape _ _ _ _ _ H Hin) as [Hr _].
  assert (Hsize : size r = (length (firstPayload (dataUrl r)) * 3) / 4).
  { rewrite Hr at 1. cbn [size buildImage]. unfold floorDiv.
    rewrite base64DataOf_firstPayload. reflexivity. }
  split; [exact Hsize|]. split; [|split; [|split]].
  - intros a p q Hu Ha Hp. rewrite Hsize, Hu. unfold firstPayload.
    change (a ++ "," ++ p ++ "," ++ q)%string
      with (a ++ String "," (p ++ String "," q))%string.
    rewrite (afterFirst_at _ _ _ Ha), (upTo_at _ _ _ Hp). reflexivity.
  - intros Hc. rewrite Hsize. unfold firstPayload, specSize.
    rewrite (upTo_absent _ _ Hc). reflexivity.
  - intros Hc. rewrite Hsize. unfold firstPayload.
    rewrite (afterFirst_absent _ _ Hc). reflexivity.
  - intros a p Hu Ha Hp Hlen. apply isBase64_no_comma in Hp.
    rewrite Hsize, Hu. unfold firstPayload.
    change (a ++ "," ++ p)%string with (a ++ String "," p)%string.
    rewrite (afterFirst_at _ _ _ Ha), (upTo_absent _ _ Hp).
    unfold length. rewrite Hlen.
    change ((Z.of_nat (base64Length 68) * 3) / 4) with 69. lia.
Qed.

Lemma size_estimate_witness :
  size (buildImage testClock ("data:image/png;base64," ++ zeros68Payload) 0) = 69
  /\ 0 < size (buildImage testClock ("data:image/png;base64," ++ zeros68Payload) 0) < 200.
Proof.
  destruct (size_estimate exampleParser testClock zeros68Svg
              [buildImage testClock ("data:image/png;base64," ++ zeros68Payload) 0]
              (buildImage testClock ("data:image/png;base64," ++ zeros68Payload) 0)
              eq_refl (or_introl eq_refl)) as (_ & _ & _ & _ & H).
  apply (H "data:image/png;base64" zeros68Payload); reflexivity.
Defined.

(** C8, as stated, fails: for the data URL
    'data:image/png;base64,AAAA,BBBB' the text after the first comma is 9
    characters long, which gives 6, and the size of the record is 3. *)
Lemma size_estimate_counterexample :
  extractImages exampleParser testClock commaSvg
  = Ok [mkImage "data:image/png;base64,AAAA,BBBB" (Some "image/png") 0 3
                "img-1700000000000-0"]
  /\ specSize "data:image/png;base64,AAAA,BBBB" = 6
  /\ size (mkImage "data:image/png;base64,AAAA,BBBB" (Some "image/png") 0 3
                   "img-1700000000000-0")
     <> specSize (dataUrl (mkImage "data:image/png;base64,AAAA,BBBB" (Some "image/png") 0 3
                                   "img-1700000000000-0")).
Proof.
  split; [reflexivity|]. split; [reflexivity|]. discriminate.
Qed.

(** The payload of the test "should estimate image size correctly" is 96
    characters long; its estimate is 72. *)
Example size_estimate_test_payload :
  extractImages testParser testClock pixelSvg
  = Ok [buildImage testClock ("data:image/png;base64," ++ pixelPayload) 0]
  /\ size (buildImage testClock ("data:image/png;base64," ++ pixelPayload) 0) = 72.
Proof.
  split; reflexivity.
Qed.

End SvgExtractorProperties.

(** ** The packager *)

Module ZipGeneratorProperties.
Import Js Spec ZipGenerator JsFacts TrimSplitFacts.
Local Open Scope list_scope.

(** *** File names *)

Lemma slash_append (a b : string) : (a ++ "/" ++ b)%string = (a ++ String "/" b)%string.
Proof. reflexivity. Qed.

(** C7, as the code has it.  [generateFilename] returns "image-", the
    decimal digits of index + 1, "." and an extension.  The extension is
    the text between the first "/" of [format] and the next "/" or the
    end; it is "png" when [format] is absent or empty, when [format] has
    no "/", and when that text is empty.  So ['image/png'] at 0 gives
    'image-1.png', ['image/jpeg'] at 5 gives 'image-6.jpeg', and a record
    without [format] at 0 gives 'image-1.png'. *)
Theorem generateFilename_spec :
  forall image i,
    (format image = None ->
       generateFilename image i = ("image-" ++ numberToString (i + 1) ++ ".png")%string)
    /\ (forall f, format image = Some f -> occurs "/" f = false ->
          generateFilename image i = ("image-" ++ numberToString (i + 1) ++ ".png")%string)
    /\ (forall a b, format image = Some (a ++ "/" ++ b)%string ->
          occurs "/" a = false -> occurs "/" b = false ->
          generateFilename image i
          = ("image-" ++ numberToString (i + 1) ++ "."
               ++ (if String.eqb b "" then "png" else b))%string)
    /\ (forall a b c, format image = Some (a ++ "/" ++ b ++ "/" ++ c)%string ->
          occurs "/" a = false -> occurs "/" b = false ->
          generateFilename image i
          = ("image-" ++ numberToString (i + 1) ++ "."
               ++ (if String.eqb b "" then "png" else b))%string)
    /\ generateFilename (mkImageObject None (Some "image/png")) 0 = "image-1.png"
    /\ generateFilename (mkImageObject None (Some "image/jpeg")) 5 = "image-6.jpeg"
    /\ generateFilename (mkImageObject None None) 0 = "image-1.png".
Proof.
  intros image i. unfold generateFilename.
  split; [|split; [|split; [|split; [|repeat split]]]].
  - intros ->. reflexivity.
  - intros f -> Hf. destruct f as [|c f].
    + reflexivity.
    + cbn [orString String.eqb]. rewrite (split_second_absent _ _ Hf). reflexivity.
  - intros a b -> Ha Hb. rewrite slash_append.
    assert (Hne : orString (Some (a ++ String "/" b)%string) "image/png"
                  = (a ++ String "/" b)%string).
    { apply orString_nonempty. destruct a; discriminate. }
    rewrite Hne, (split_second _ _ _ Ha Hb). reflexivity.
  - intros a b c -> Ha Hb.
    change (a ++ "/" ++ b ++ "/" ++ c)%string
      with (a ++ String "/" (b ++ String "/" c))%string.
    assert (Hne : orString (Some (a ++ String "/" (b ++ String "/" c))%string) "image/png"
                  = (a ++ String "/" (b ++ String "/" c))%string).
    { apply orString_nonempty. destruct a; discriminate. }
    rewrite Hne, (split_second_of_three _ _ _ _ Ha Hb). reflexivity.
Qed.

Lemma generateFilename_spec_witness :
  generateFilename (mkImageObject None (Some "image/svg+xml")) 99 = "image-100.svg+xml"
  /\ generateFilename (mkImageObject None (Some "image/")) 0 = "image-1.png"
  /\ generateFilename (mkImageObject None (Some "png")) 1 = "image-2.png".
Proof.
  split; [|split].
  - destruct (generateFilename_spec (mkImageObject None (Some "image/svg+xml")) 99)
      as (_ & _ & H & _).
    apply (H "image" "svg+xml"); reflexivity.
  - destruct (generateFilename_spec (mkImageObject None (Some "image/")) 0)
      as (_ & _ & H & _).
    apply (H "image" ""); reflexivity.
  - destruct (generateFilename_spec (mkImageObject None (Some "png")) 1)
      as (_ & H & _).
    apply (H "png"); reflexivity.
Defined.

(** C7, as stated, fails: for the format 'image/' the text after "/" is
    empty, and the code answers 'image-1.png', not 'image-1.'. *)
Lemma generateFilename_counterexample :
  generateFilename (mkImageObject None (Some "image/")) 0 = "image-1.png"
  /\ ~ specFilename (mkImageObject None (Some "image/")) 0
         (generateFilename (mkImageObject None (Some "image/")) 0).
Proof.
  split; [reflexivity|]. unfold specFilename. simpl format. intros H.
  specialize (H "image" "" eq_refl eq_refl). discriminate H.
Qed.

(** *** Archive assembly *)

Section Assembly.

Variable Blob : Type.
Variable generateAsync : list ZipEntry -> list Q * result Blob.
Variable St : Type.

(** When no record has a payload, the error thrown inside the [try]
    block is caught by its own [catch] and replaced. *)
Lemma generateZip_nothing_valid (images : list ImageObject)
      (progressCallback : option (Z -> St -> St)) (st : St) :
  images <> [] -> filter filterCallback images = [] ->
  generateZip Blob generateAsync St (Some images) progressCallback st
  = (Throw (Error ERROR_MESSAGES.ZIP_GENERATION_FAILED), st).
Proof.
  intros Hne Hf. unfold generateZip, assemble. rewrite Hf.
  destruct images as [|img rest]; [contradiction|]. reflexivity.
Qed.

Lemma fold_onUpdate (callback : Z -> St -> St) (updates : list Q) :
  forall st,
    fold_left (onUpdate St (Some callback)) updates st
    = fold_left (fun acc p => callback p acc) (map Math_round updates) st.
Proof.
  induction updates as [|u updates IH]; intros st.
  - reflexivity.
  - simpl. apply IH.
Qed.

(** A call that resolves has gone through [generateAsync]. *)
Lemma generateZip_resolves (images : list ImageObject)
      (callback : Z -> St -> St) (st st' : St) (blob : Blob) :
  generateZip Blob generateAsync St (Some images) (Some callback) st = (Ok blob, st') ->
  exists zip updates,
    generateAsync zip = (updates, Ok blob)
    /\ st' = fold_left (fun acc p => callback p acc) (map Math_round updates) st.
Proof.
  unfold generateZip.
  destruct (Z.of_nat (List.length images) =? 0); [discriminate|].
  unfold assemble.
  destruct (Z.of_nat (List.length (filter filterCallback images)) =? 0);
    [discriminate|].
  destruct (addFilesFrom 0 (filter filterCallback images) []) as [zip|e];
    [|discriminate].
  destruct (generateAsync zip) as [updates r] eqn:E.
  destruct r as [b|e]; simpl; [|discriminate].
  intros H. injection H as -> <-.
  exists zip, updates. split; [exact E|]. apply fold_onUpdate.
Qed.

End Assembly.

Lemma last_map {A B : Type} (f : A -> B) (l : list A) (d : A) :
  last (map f l) (f d) = f (last l d).
Proof.
  induction l as [|a l IH]; [reflexivity|].
  destruct l as [|b l]; [reflexivity|]. exact IH.
Qed.

Lemma Math_round_range (u : Q) :
  (0 <= u <= 100)%Q -> 0 <= Math_round u <= 100.
Proof.
  intros [Hlo Hhi]. unfold Math_round. split.
  - change 0 with (Qfloor (0 + (1 # 2))). apply Qfloor_resp_le.
    apply Qplus_le_compat; [exact Hlo|apply Qle_refl].
  - change 100 with (Qfloor (100 + (1 # 2))). apply Qfloor_resp_le.
    apply Qplus_le_compat; [exact Hhi|apply Qle_refl].
Qed.

Lemma Math_round_100 (u : Q) : (u == 100)%Q -> Math_round u = 100.
Proof.
  intros H. unfold Math_round.
  change 100 with (Qfloor (100 + (1 # 2))). apply Qfloor_comp.
  rewrite H. reflexivity.
Qed.

(** C2, as the code has it.  For the list of the one record
    [{dataUrl: 'data:image/png', format: 'image/png'}], which has no
    payload, [generateZip] rejects with the text of
    ZIP_GENERATION_FAILED, whatever the archive library and the callback:
    the error "No valid images to include in ZIP" is thrown inside the
    [try] block and replaced by its [catch]. *)
Theorem generateZip_masks_no_valid_images :
  forall (Blob : Type) (generateAsync : list ZipEntry -> list Q * result Blob)
         (St : Type) (progressCallback : option (Z -> St -> St)) (st : St),
    generateZip Blob generateAsync St
      (Some [mkImageObject (Some "data:image/png") (Some "image/png")])
      progressCallback st
    = (Throw (Error "Failed to generate ZIP file. Please try downloading images individually."),
       st)
    /\ generateZip Blob generateAsync St
         (Some [mkImageObject (Some "data:image/png") (Some "image/png")])
         progressCallback st
       <> (Throw (Error "No valid images to include in ZIP"), st).
Proof.
  intros Blob generateAsync St progressCallback st.
  rewrite generateZip_nothing_valid; [|discriminate|reflexivity].
  split; [reflexivity|]. intros H. discriminate H.
Qed.

(** C9.  Let the archive library keep its contract: when it resolves it
    has reported progress at least once, in percentages from 0 to 100,
    the last of them 100.  Then whenever [generateZip] resolves with a
    progress callback supplied, the callback has been called on a
    non-empty sequence of integers from 0 to 100, in order, and the value
    of its last call is 100. *)
Theorem generateZip_progress :
  forall (Blob : Type) (generateAsync : list ZipEntry -> list Q * result Blob),
    progressContract generateAsync ->
    forall (St : Type) (callback : Z -> St -> St) (st st' : St)
           (images : list ImageObject) (blob : Blob),
      generateZip Blob generateAsync St (Some images) (Some callback) st = (Ok blob, st') ->
      exists reported,
        st' = fold_left (fun acc p => callback p acc) reported st
        /\ reported <> []
        /\ last reported 0 = 100
        /\ Forall (fun p => 0 <= p <= 100) reported.
Proof.
  intros Blob generateAsync Hlib St callback st st' images blob H.
  apply generateZip_resolves in H. destruct H as (zip & updates & Hga & Hst).
  destruct (Hlib _ _ _ Hga) as (Hne & Hlast & Hrange).
  exists (map Math_round updates). split; [exact Hst|]. split; [|split].
  - destruct updates; [contradiction|discriminate].
  - change 0 with (Math_round 0) at 1. rewrite last_map.
    apply Math_round_100. exact Hlast.
  - apply Forall_map. revert Hrange. apply Forall_impl.
    intros u. apply Math_round_range.
Qed.

Lemma testGenerateAsync_contract : progressContract testGenerateAsync.
Proof.
  intros zip updates blob H. unfold testGenerateAsync in H.
  injection H as <- _. split; [discriminate|]. split; [reflexivity|].
  repeat constructor; unfold Qle; simpl; lia.
Defined.

Lemma generateZip_progress_witness :
  exists reported,
    [50; 100] = fold_left (fun acc p => pushCall p acc) reported []
    /\ reported <> []
    /\ last reported 0 = 100
    /\ Forall (fun p => 0 <= p <= 100) reported.
Proof.
  apply (generateZip_progress _ testGenerateAsync testGenerateAsync_contract
           (list Z) pushCall [] [50; 100]
           [mkImageObject (Some "data:image/png;base64,iVBORw0KGgo=") (Some "image/png")]
           [("image-1.png", Some "iVBORw0KGgo=")]).
  reflexivity.
Defined.

End ZipGeneratorProperties.


(** * Further properties *)

(** ** Validation results and translated texts *)

Module ValidationProperties.
Import Js Spec Validators ErrorHandler JsFacts TrimSplitFacts SvgExtractorFacts.

Lemma allWhiteSpace_app (a b : string) :
  allWhiteSpace (a ++ b) = allWhiteSpace a && allWhiteSpace b.
Proof.
  induction a as [|c a IH]; simpl.
  - reflexivity.
  - rewrite IH. apply andb_assoc.
Qed.

(** A text that holds "<svg" holds a code unit that is not white space. *)
Lemma contains_tag_not_blank (s : string) :
  contains s "<svg" -> allWhiteSpace s = false.
Proof.
  intros (a & b & ->). rewrite !allWhiteSpace_app.
  change (allWhiteSpace "<svg") with false.
  rewrite andb_false_l. apply andb_false_r.
Qed.

(** X1.  In the result of [isValidSvg] and in the result of [isValidFile]
    the error is [null] exactly when the result is valid. *)
Theorem validation_error_iff_invalid :
  (forall content, error (isValidSvg content) = None <-> valid (isValidSvg content) = true)
  /\ (forall file, error (isValidFile file) = None <-> valid (isValidFile file) = true).
Proof.
  split.
  - intros content. unfold isValidSvg.
    destruct (negb (truthy (Some content)) || (length (trim content) =? 0)); simpl.
    + split; discriminate.
    + destruct (negb (includes content "<svg")); simpl; split;
        try discriminate; reflexivity.
  - intros [f|]; unfold isValidFile.
    + destruct (size f >? maxSize); simpl; [split; discriminate|].
      destruct (negb (validTypes_includes (type f)) && negb (endsWith (name f) ".svg"));
        simpl; split; try discriminate; reflexivity.
    + simpl. split; discriminate.
Qed.

Lemma isValidSvg_accepts_tag (content : string) :
  contains content "<svg" -> valid (isValidSvg content) = true.
Proof.
  intros H. apply isValidSvg_valid. split; [apply contains_tag_not_blank|]; exact H.
Qed.

(** X2.  [isValidSvg] accepts a text exactly when the text contains
    "<svg": such a text is never empty or white space only, so the first
    check only chooses the message. *)
Theorem isValidSvg_accepts_iff_tag :
  forall content, valid (isValidSvg content) = true <-> contains content "<svg".
Proof.
  intros content. rewrite isValidSvg_valid. split.
  - intros [_ H]. exact H.
  - intros H. split; [apply contains_tag_not_blank|]; exact H.
Qed.

Lemma orString_default_nonempty (m d : string) :
  d <> "" -> orString (Some m) d <> "".
Proof.
  intros Hd. unfold orString. destruct (String.eqb_spec m ""); assumption.
Qed.

(** X3.  [handleError] returns a non-empty text for every error but one: a
    [ValidationError] whose own message is empty. *)
Theorem handleError_empty_only_for_empty_validation :
  forall e, handleError e = "" -> exists field, e = ValidationError "" field.
Proof.
  intros e H. destruct e as [m|m|m field|m url code|m]; unfold handleError in H.
  - exfalso. revert H. apply orString_default_nonempty. discriminate.
  - destruct (includes m "fetch"); [discriminate|].
    exfalso. revert H. apply orString_default_nonempty. discriminate.
  - exists field. rewrite H. reflexivity.
  - destruct (includes m "CORS" || includes m "cors"); [discriminate|].
    destruct (includes m "timeout" || includes m "Timeout"); [discriminate|].
    exfalso. revert H. apply orString_default_nonempty. discriminate.
  - discriminate.
Qed.

Lemma handleError_empty_only_for_empty_validation_witness :
  exists field, ValidationError "" (Some "url") = ValidationError "" field.
Proof.
  apply (handleError_empty_only_for_empty_validation (ValidationError "" (Some "url"))).
  reflexivity.
Defined.

End ValidationProperties.

(** ** Decimal digits and separators *)

Module TextFacts.
Import Js Spec TrimSplitFacts.

Lemma occurs_app (c : ascii) (a b : string) :
  occurs c (a ++ b) = occurs c a || occurs c b.
Proof.
  induction a as [|d a IH]; simpl.
  - reflexivity.
  - rewrite IH. apply orb_assoc.
Qed.

Lemma occurs_at (c : ascii) (a b : string) :
  occurs c (a ++ String c b) = true.
Proof.
  rewrite occurs_app. simpl. rewrite Ascii.eqb_refl. apply orb_true_r.
Qed.

(** What stands before the first separator is determined. *)
Lemma first_separator (c : ascii) (a b x y : string) :
  occurs c a = false -> occurs c b = false ->
  (a ++ String c x)%string = (b ++ String c y)%string -> a = b /\ x = y.
Proof.
  revert b. induction a as [|d a IH]; intros b Ha Hb H.
  - destruct b as [|e b].
    + simpl in H. injection H as ->. split; reflexivity.
    + simpl in H. injection H as <- _. simpl in Hb.
      rewrite Ascii.eqb_refl in Hb. discriminate.
  - destruct b as [|e b].
    + simpl in H. injection H as -> _. simpl in Ha.
      rewrite Ascii.eqb_refl in Ha. discriminate.
    + simpl in H. injection H as <- H. simpl in Ha, Hb.
      apply orb_false_iff in Ha. apply orb_false_iff in Hb.
      destruct (IH b (proj2 Ha) (proj2 Hb) H) as [-> ->]. split; reflexivity.
Qed.

(** What stands after the last separator is determined. *)
Lemma last_separator (c : ascii) (a b x y : string) :
  occurs c x = false -> occurs c y = false ->
  (a ++ String c x)%string = (b ++ String c y)%string -> x = y.
Proof.
  revert b. induction a as [|d a IH]; intros b Hx Hy H.
  - destruct b as [|e b].
    + simpl in H. injection H as ->. reflexivity.
    + simpl in H. injection H as _ H. subst x.
      rewrite occurs_at in Hx. discriminate.
  - destruct b as [|e b].
    + simpl in H. injection H as _ H. subst y.
      rewrite occurs_at in Hy. discriminate.
    + simpl in H. injection H as _ H. exact (IH b Hx Hy H).
Qed.

Lemma string_of_uint_digits (c : ascii) (d : Decimal.uint) :
  (c = "-" \/ c = ".")%char -> occurs c (NilEmpty.string_of_uint d) = false.
Proof.
  intros Hc. induction d; simpl; try rewrite IHd; try reflexivity;
    destruct Hc as [-> | ->]; reflexivity.
Qed.

(** The digits of a number hold no dot. *)
Lemma numberToString_no_dot (n : Z) : occurs "." (numberToString n) = false.
Proof.
  unfold numberToString. destruct (Z.to_int n) as [d|d]; simpl.
  - apply string_of_uint_digits. right. reflexivity.
  - apply string_of_uint_digits. right. reflexivity.
Qed.

(** The digits of a number that is not negative hold no minus sign. *)
Lemma numberToString_no_minus (n : Z) :
  0 <= n -> occurs "-" (numberToString n) = false.
Proof.
  intros Hn. unfold numberToString. destruct n as [|p|p]; simpl.
  - reflexivity.
  - apply string_of_uint_digits. left. reflexivity.
  - lia.
Qed.

Lemma numberToString_inj (n m : Z) :
  numberToString n = numberToString m -> n = m.
Proof.
  unfold numberToString. intros H.
  apply DecimalZ.to_int_inj.
  assert (E : Some (Z.to_int n) = Some (Z.to_int m)).
  { rewrite <- (NilEmpty.isi (Z.to_int n)), <- (NilEmpty.isi (Z.to_int m)), H.
    reflexivity. }
  injection E as E. exact E.
Qed.

Lemma split_hd_app (sep : ascii) (p r : string) :
  occurs sep p = false ->
  hd "" (split sep (p ++ r)) = (p ++ hd "" (split sep r))%string.
Proof.
  induction p as [|c p IH]; simpl; intros H.
  - reflexivity.
  - apply orb_false_iff in H. destruct H as [Hc Hp]. rewrite Hc.
    specialize (IH Hp). destruct (split sep (p ++ r)) as [|h t] eqn:E.
    + exfalso. exact (split_nonempty _ _ E).
    + simpl in IH. simpl. rewrite IH. reflexivity.
Qed.

Lemma split_second_is_hd (sep : ascii) (a b : string) :
  occurs sep a = false ->
  nth_error (split sep (a ++ String sep b)) 1 = Some (hd "" (split sep b)).
Proof.
  intros Ha. rewrite (split_first _ _ _ Ha).
  destruct (split sep b) as [|h t] eqn:E.
  - exfalso. exact (split_nonempty _ _ E).
  - reflexivity.
Qed.

(** A piece of a text is no longer than the text. *)
Lemma split_piece_length (sep : ascii) (s p : string) :
  In p (split sep s) -> (String.length p <= String.length s)%nat.
Proof.
  revert p. induction s as [|c r IH]; simpl; intros p H.
  - destruct H as [<-|[]]. simpl. lia.
  - destruct (Ascii.eqb c sep).
    + destruct H as [<-|H]; [simpl; lia|]. specialize (IH _ H). lia.
    + destruct (split sep r) as [|h t] eqn:E.
      * destruct H as [<-|[]]. simpl. lia.
      * destruct H as [<-|H].
        -- simpl. assert (String.length h <= String.length r)%nat
             by (apply IH; left; reflexivity). lia.
        -- assert (String.length p <= String.length r)%nat
             by (apply IH; right; exact H). lia.
Qed.

End TextFacts.

(** ** Records of an extraction *)

Module ExtractionProperties.
Import Js Spec SvgExtractor ErrorHandler JsFacts TrimSplitFacts SvgExtractorFacts TextFacts.
Local Open Scope list_scope.

(** Every record is built from an embedded element, at its position. *)
Lemma record_origin parse now (s : string) (recs : list ExtractedImage) (r : ExtractedImage) :
  extractImages parse now s = Ok recs -> In r recs ->
  exists i,
    In i (embeddedPositions (imageElements (parse s)))
    /\ r = buildImage now (referenceAt (imageElements (parse s)) i) (Z.of_nat i).
Proof.
  intros H Hin. apply extractImages_Ok in H. subst recs.
  rewrite forEachFrom_records in Hin. apply in_map_iff in Hin.
  destruct Hin as (i & <- & Hi). exists i. split; [exact Hi|reflexivity].
Qed.

Lemma embedded_at (els : list Element) (i : nat) :
  In i (embeddedPositions els) ->
  (i < List.length els)%nat
  /\ hrefOf (nth i els noElement) = Some (referenceAt els i)
  /\ startsWith (referenceAt els i) "data:image/" = true.
Proof.
  intros Hi. split; [exact (embeddedPositions_bound _ _ Hi)|].
  unfold embeddedPositions in Hi. apply filter_In in Hi. destruct Hi as [_ Hi].
  unfold embedded, isEmbedded in Hi. unfold referenceAt.
  destruct (hrefOf (nth i els noElement)) as [h|]; [|discriminate].
  apply andb_true_iff in Hi. destruct Hi as [Ht Hs].
  unfold truthy in Ht. unfold orString.
  destruct (String.eqb h ""); [discriminate|]. split; [reflexivity|exact Hs].
Qed.

(** The format of a [data:image/] URL is defined and starts with
    "image/". *)
Lemma formatOf_data_image (u : string) :
  startsWith u "data:image/" = true ->
  exists subtype, formatOf u = Some ("image/" ++ subtype)%string.
Proof.
  intros H. apply startsWith_inv in H. destruct H as [r ->].
  unfold formatOf.
  rewrite (split_hd_app ";" "data:image/" r eq_refl).
  exists (hd "" (split ":" (hd "" (split ";" r)))).
  change ("data:image/" ++ hd "" (split ";" r))%string
    with ("data" ++ String ":" ("image/" ++ hd "" (split ";" r)))%string.
  rewrite (split_second_is_hd ":" "data" _ eq_refl).
  rewrite (split_hd_app ":" "image/" _ eq_refl). reflexivity.
Qed.

Lemma base64DataOf_length (u : string) :
  0 <= length (base64DataOf u) <= length u.
Proof.
  unfold base64DataOf, length. split; [lia|].
  destruct (nth_error (split "," u) 1) as [p|] eqn:E; simpl.
  - apply nth_error_In, split_piece_length in E.
    destruct (String.eqb p ""); simpl; lia.
  - lia.
Qed.

(** X4.  Every record [extractImages] returns has a data URL that starts
    with "data:image/" and is the reference of the image element at
    position [index]; its format is defined and starts with "image/"; its
    index is a position among the image elements; and its size is not
    negative and at most three quarters of the length of the data URL. *)
Theorem record_invariants :
  forall parse now s recs r,
    extractImages parse now s = Ok recs -> In r recs ->
    startsWith (dataUrl r) "data:image/" = true
    /\ (exists subtype, format r = Some ("image/" ++ subtype)%string)
    /\ 0 <= index r < Z.of_nat (List.length (imageElements (parse s)))
    /\ hrefOf (nth (Z.to_nat (index r)) (imageElements (parse s)) noElement)
       = Some (dataUrl r)
    /\ 0 <= size r /\ 4 * size r <= 3 * length (dataUrl r).
Proof.
  intros parse now s recs r H Hin.
  destruct (record_origin _ _ _ _ _ H Hin) as (i & Hi & ->).
  destruct (embedded_at _ _ Hi) as (Hlt & Href & Hstart).
  cbn [dataUrl format index size buildImage].
  split; [exact Hstart|]. split; [apply formatOf_data_image; exact Hstart|].
  split; [lia|]. split; [rewrite Nat2Z.id; exact Href|].
  unfold floorDiv.
  pose proof (base64DataOf_length (referenceAt (imageElements (parse s)) i)) as [Hlo Hhi].
  split.
  - apply Z.div_pos; lia.
  - pose proof (Z.mul_div_le
                  (length (base64DataOf (referenceAt (imageElements (parse s)) i)) * 3) 4).
    lia.
Qed.

Lemma record_invariants_witness :
  startsWith "data:image/png;base64,ABC123" "data:image/" = true
  /\ (exists subtype, Some "image/png" = Some ("image/" ++ subtype)%string)
  /\ 0 <= 1 < Z.of_nat (List.length (imageElements (testParser mixedSvg)))
  /\ hrefOf (nth (Z.to_nat 1) (imageElements (testParser mixedSvg)) noElement)
     = Some "data:image/png;base64,ABC123"
  /\ 0 <= 4 /\ 4 * 4 <= 3 * length "data:image/png;base64,ABC123".
Proof.
  apply (record_invariants testParser testClock mixedSvg
           [mkImage "data:image/png;base64,ABC123" (Some "image/png") 1 4
                    "img-1700000000000-1"]
           (mkImage "data:image/png;base64,ABC123" (Some "image/png") 1 4
                    "img-1700000000000-1")).
  - reflexivity.
  - left. reflexivity.
Defined.

(** X5.  The format of a record is the text between "data:" and the first
    ";" of its data URL, when that text holds no ":". *)
Theorem format_is_mime_type :
  forall parse now s recs r mime rest,
    extractImages parse now s = Ok recs -> In r recs ->
    dataUrl r = ("data:" ++ mime ++ ";" ++ rest)%string ->
    occurs ";" mime = false -> occurs ":" mime = false ->
    format r = Some mime.
Proof.
  intros parse now s recs r mime rest H Hin Hu Hsemi Hcolon.
  destruct (record_origin _ _ _ _ _ H Hin) as (i & _ & Hr).
  rewrite Hr in Hu |- *. cbn [dataUrl format buildImage] in Hu |- *.
  rewrite Hu. unfold formatOf.
  assert (Hfirst : occurs ";" ("data:" ++ mime) = false).
  { rewrite occurs_app, Hsemi. reflexivity. }
  replace ("data:" ++ mime ++ ";" ++ rest)%string
    with (("data:" ++ mime) ++ String ";" rest)%string by reflexivity.
  rewrite (split_first _ _ _ Hfirst). cbn [hd].
  change ("data:" ++ mime)%string with ("data" ++ String ":" mime)%string.
  apply split_second; [reflexivity|exact Hcolon].
Qed.

Lemma format_is_mime_type_witness :
  format (mkImage "data:image/png;base64,ABC123" (Some "image/png") 1 4 "img-1700000000000-1")
  = Some "image/png".
Proof.
  apply (format_is_mime_type testParser testClock mixedSvg
           [mkImage "data:image/png;base64,ABC123" (Some "image/png") 1 4
                    "img-1700000000000-1"]
           _ "image/png" "base64,ABC123");
    try reflexivity.
  left. reflexivity.
Defined.

Lemma append_associative (a b c : string) :
  ((a ++ b) ++ c = a ++ (b ++ c))%string.
Proof.
  induction a as [|d a IH]; simpl; [reflexivity|]. rewrite IH. reflexivity.
Qed.

Lemma id_determines_index now (u v : string) (i j : Z) :
  0 <= i -> 0 <= j ->
  id (buildImage now u i) = id (buildImage now v j) -> i = j.
Proof.
  intros Hi Hj H. cbn [id buildImage] in H.
  apply numberToString_inj.
  apply (last_separator "-"
           ("img-" ++ numberToString (now i)) ("img-" ++ numberToString (now j))).
  - apply numberToString_no_minus. exact Hi.
  - apply numberToString_no_minus. exact Hj.
  - rewrite !append_associative. exact H.
Qed.

(** X6.  The ids of the records of one extraction are pairwise distinct,
    whatever the clock reads: two records never share an id. *)
Theorem ids_unique :
  forall parse now s recs,
    extractImages parse now s = Ok recs -> NoDup (map id recs).
Proof.
  intros parse now s recs H. apply extractImages_Ok in H. subst recs.
  rewrite forEachFrom_records, map_map.
  apply NoDup_map_NoDup_ForallPairs.
  - intros i j _ _ Hid. apply id_determines_index in Hid; lia.
  - unfold embeddedPositions. apply NoDup_filter, seq_NoDup.
Qed.

Lemma ids_unique_witness :
  NoDup (map id [mkImage "data:image/png;base64,ABC" (Some "image/png") 0 2
                         "img-1700000000000-0";
                 mkImage "data:image/png;base64,XYZ" (Some "image/png") 1 2
                         "img-1700000000000-1"]).
Proof.
  apply (ids_unique Terms.exampleParser testClock Terms.twoImagesSvg). reflexivity.
Defined.

End ExtractionProperties.

(** ** From extraction to the archive *)

Module PackagingProperties.
Import Js Spec ErrorHandler JsFacts TrimSplitFacts SvgExtractorFacts TextFacts.
Import ValidationProperties ExtractionProperties.
Local Open Scope list_scope.

(** X7.  [extractImages] returns exactly when the text contains "<svg" and
    the parser reports no error.  When it throws, the text [handleError]
    shows for the error is "SVG content is empty" for an empty or
    white-space-only text, "Content does not appear to be valid SVG" for
    any other text without "<svg", and the parse-failure text for a text
    with "<svg" that the parser rejects. *)
Theorem extractImages_outcomes :
  forall parse now s,
    ((exists recs, SvgExtractor.extractImages parse now s = Ok recs)
     <-> contains s "<svg" /\ SvgExtractor.parsererror (parse s) = false)
    /\ (forall e, SvgExtractor.extractImages parse now s = Throw e ->
          (allWhiteSpace s = true -> handleError e = "SVG content is empty")
          /\ (allWhiteSpace s = false -> ~ contains s "<svg" ->
              handleError e = "Content does not appear to be valid SVG")
          /\ (contains s "<svg" ->
              SvgExtractor.parsererror (parse s) = true
              /\ handleError e = ERROR_MESSAGES.PARSE_ERROR)).
Proof.
  intros parse now s. unfold SvgExtractor.extractImages.
  destruct (Validators.valid (Validators.isValidSvg s)) eqn:Hv; simpl.
  - apply isValidSvg_valid in Hv. destruct Hv as [Hw Hc].
    destruct (SvgExtractor.parsererror (parse s)) eqn:Hp.
    + split.
      * split; [intros [recs H]; discriminate|intros [_ H]; discriminate].
      * intros e H. injection H as <-. split; [congruence|].
        split; [intros _ Hn; contradiction|]. intros _. split; reflexivity.
    + split.
      * split; [intros _; split; [exact Hc|reflexivity]|intros _; eexists; reflexivity].
      * intros e H. discriminate.
  - split.
    + split; [intros [recs H]; discriminate|].
      intros [Hc _]. apply isValidSvg_accepts_tag in Hc. congruence.
    + intros e H. injection H as <-.
      destruct (isValidSvg_invalid _ Hv) as [Hw|[Hw Hc]].
      * rewrite (isValidSvg_blank _ Hw). split; [reflexivity|].
        split; [congruence|]. intros Hc. apply contains_tag_not_blank in Hc. congruence.
      * rewrite (isValidSvg_no_tag _ Hw Hc). split; [congruence|].
        split; [reflexivity|]. intros Hc'. contradiction.
Qed.

Lemma extractImages_outcomes_witness :
  handleError (ParseError "Failed to parse SVG content. The SVG may be malformed.")
  = ERROR_MESSAGES.PARSE_ERROR.
Proof.
  destruct (extractImages_outcomes testParser testClock "<svg><image></svg") as [_ H].
  apply (H (ParseError "Failed to parse SVG content. The SVG may be malformed.") eq_refl).
  apply includes_contains. reflexivity.
Defined.

(** *** Which records the packager keeps *)

Lemma filterCallback_payload (img : ZipGenerator.ImageObject) :
  ZipGenerator.filterCallback img = true <->
  exists u p, ZipGenerator.dataUrl img = Some u
              /\ nth_error (split "," u) 1 = Some p /\ p <> "".
Proof.
  unfold ZipGenerator.filterCallback, ZipGenerator.base64DataOf.
  destruct (ZipGenerator.dataUrl img) as [u|]; cbv beta iota.
  - destruct (nth_error (split "," u) 1) as [p|] eqn:Ep.
    + unfold truthy, orString.
      destruct (String.eqb_spec p "") as [->|Hp]; cbn [negb orb].
      * split; [discriminate|]. intros (u' & p' & Hu & H & Hp).
        injection Hu as <-. congruence.
      * assert (Hl : (length p =? 0) = false).
        { destruct (length p =? 0) eqn:E; [|reflexivity].
          apply length_zero in E. contradiction. }
        rewrite Hl. split; [|reflexivity].
        intros _. exists u, p. repeat split; assumption.
    + cbn [truthy negb orb]. split; [discriminate|]. intros (u' & p' & Hu & H & _).
      injection Hu as <-. congruence.
  - cbn [truthy negb orb]. split; [discriminate|]. intros (u' & p' & H & _). discriminate.
Qed.

Lemma filterCallback_extracted (r : SvgExtractor.ExtractedImage) :
  ZipGenerator.filterCallback (ZipGenerator.ofExtracted r)
  = negb (String.eqb (SvgExtractor.base64DataOf (SvgExtractor.dataUrl r)) "").
Proof.
  unfold ZipGenerator.filterCallback, ZipGenerator.base64DataOf, ZipGenerator.ofExtracted,
    SvgExtractor.base64DataOf.
  cbn [ZipGenerator.dataUrl].
  destruct (nth_error (split "," (SvgExtractor.dataUrl r)) 1) as [p|]; simpl.
  - destruct (String.eqb_spec p "") as [->|Hp]; simpl; [reflexivity|].
    destruct (length p =? 0) eqn:E; [|rewrite (proj2 (String.eqb_neq _ _) Hp); reflexivity].
    apply length_zero in E. contradiction.
  - reflexivity.
Qed.

(** X8.  The packager keeps an extracted record exactly when some text
    stands between the first comma of its data URL and the next comma or
    the end.  So it keeps every record of positive size, and it drops a
    record whose data URL has no comma, although [extractImages] returned
    it. *)
Theorem extracted_record_kept :
  forall parse now s recs r,
    SvgExtractor.extractImages parse now s = Ok recs -> In r recs ->
    (ZipGenerator.filterCallback (ZipGenerator.ofExtracted r) = true
     <-> SvgExtractor.base64DataOf (SvgExtractor.dataUrl r) <> "")
    /\ (0 < SvgExtractor.size r ->
        ZipGenerator.filterCallback (ZipGenerator.ofExtracted r) = true)
    /\ (occurs "," (SvgExtractor.dataUrl r) = false ->
        ZipGenerator.filterCallback (ZipGenerator.ofExtracted r) = false).
Proof.
  intros parse now s recs r H Hin. rewrite filterCallback_extracted.
  destruct (record_origin _ _ _ _ _ H Hin) as (i & _ & Hr).
  split; [|split].
  - rewrite negb_true_iff. apply String.eqb_neq.
  - intros Hsize. rewrite Hr in Hsize |- *.
    cbn [SvgExtractor.size SvgExtractor.dataUrl SvgExtractor.buildImage] in Hsize |- *.
    destruct (String.eqb_spec
                (SvgExtractor.base64DataOf
                   (referenceAt (SvgExtractor.imageElements (parse s)) i)) "") as [E|E];
      [|reflexivity].
    rewrite E in Hsize. discriminate Hsize.
  - intros Hc. unfold SvgExtractor.base64DataOf.
    rewrite (split_second_absent _ _ Hc). reflexivity.
Qed.

Lemma extracted_record_kept_witness :
  ZipGenerator.filterCallback
    (ZipGenerator.ofExtracted
       (SvgExtractor.mkImage "data:image/png;base64,ABC123" (Some "image/png") 1 4
                             "img-1700000000000-1")) = true.
Proof.
  destruct (extracted_record_kept testParser testClock mixedSvg
              [SvgExtractor.mkImage "data:image/png;base64,ABC123" (Some "image/png") 1 4
                                    "img-1700000000000-1"]
              (SvgExtractor.mkImage "data:image/png;base64,ABC123" (Some "image/png") 1 4
                                    "img-1700000000000-1")
              eq_refl (or_introl eq_refl)) as (_ & H & _).
  apply H. reflexivity.
Defined.

(** *** The entries of the archive *)

Lemma append_cancel (a x y : string) : (a ++ x = a ++ y)%string -> x = y.
Proof.
  induction a as [|c a IH]; simpl; intros H; [exact H|].
  injection H as H. exact (IH H).
Qed.

(** The file name tells the position. *)
Lemma generateFilename_index (a b : ZipGenerator.ImageObject) (i j : Z) :
  ZipGenerator.generateFilename a i = ZipGenerator.generateFilename b j -> i = j.
Proof.
  unfold ZipGenerator.generateFilename. intros H. apply append_cancel in H.
  apply first_separator in H; try apply numberToString_no_dot.
  destruct H as [H _]. apply numberToString_inj in H. lia.
Qed.

(** On images that passed the filter the loop never throws, and it adds
    one entry per image. *)
Lemma addFilesFrom_valid (images : list ZipGenerator.ImageObject) :
  forall i zip,
    forallb ZipGenerator.filterCallback images = true ->
    exists entries,
      ZipGenerator.addFilesFrom i images zip = Ok (zip ++ entries)
      /\ List.length entries = List.length images
      /\ forall k img,
           nth_error images k = Some img ->
           exists p,
             ZipGenerator.base64DataOf img = Some p /\ p <> ""
             /\ nth_error entries k
                = Some (ZipGenerator.generateFilename img (i + Z.of_nat k), Some p).
Proof.
  induction images as [|img rest IH]; intros i zip Hall.
  - exists []. simpl. rewrite app_nil_r. split; [reflexivity|]. split; [reflexivity|].
    intros [|k] img H; discriminate.
  - cbn [forallb] in Hall. apply andb_true_iff in Hall. destruct Hall as [Himg Hrest].
    apply filterCallback_payload in Himg. destruct Himg as (u & p & Hu & Hp & Hne).
    cbn [ZipGenerator.addFilesFrom]. rewrite Hu, Hp.
    destruct (IH (i + 1) (zip ++ [(ZipGenerator.generateFilename img i, Some p)]) Hrest)
      as (entries & Hrun & Hlen & Hnth).
    exists ((ZipGenerator.generateFilename img i, Some p) :: entries).
    split; [rewrite Hrun, <- app_assoc; reflexivity|].
    split; [simpl; rewrite Hlen; reflexivity|].
    intros [|k] img' H.
    + injection H as <-. exists p. split.
      * unfold ZipGenerator.base64DataOf. rewrite Hu. exact Hp.
      * split; [exact Hne|]. simpl. rewrite Z.add_0_r. reflexivity.
    + destruct (Hnth k img' H) as (p' & Hb & Hne' & Hk).
      exists p'. split; [exact Hb|]. split; [exact Hne'|].
      simpl nth_error. rewrite Hk. do 3 f_equal. lia.
Qed.

Lemma filter_forallb {A : Type} (f : A -> bool) (l : list A) :
  forallb f (filter f l) = true.
Proof.
  apply forallb_forall. intros x Hx. apply filter_In in Hx. exact (proj2 Hx).
Qed.

(** X9.  The packager never throws while it adds the files: for every
    list of images it adds one entry per image that passed the filter, the
    entry at position k named by [generateFilename] at k and holding the
    image's non-empty payload.  When at least one image passed, how
    [generateZip] settles is what the archive library does with these
    entries, an error of the library being replaced by the
    ZIP_GENERATION_FAILED text. *)
Theorem zip_entries :
  forall (Blob : Type) (generateAsync : list ZipGenerator.ZipEntry -> list Q * result Blob)
         (St : Type) (images : list ZipGenerator.ImageObject)
         (progressCallback : option (Z -> St -> St)) (st : St),
    exists zip,
      ZipGenerator.addFilesFrom 0 (filter ZipGenerator.filterCallback images) [] = Ok zip
      /\ List.length zip = List.length (filter ZipGenerator.filterCallback images)
      /\ (forall k img,
            nth_error (filter ZipGenerator.filterCallback images) k = Some img ->
            exists p,
              ZipGenerator.base64DataOf img = Some p /\ p <> ""
              /\ nth_error zip k
                 = Some (ZipGenerator.generateFilename img (Z.of_nat k), Some p))
      /\ (filter ZipGenerator.filterCallback images <> [] ->
          ZipGenerator.generateZip Blob generateAsync St (Some images) progressCallback st
          = (tryCatch (snd (generateAsync zip))
                      (fun _ => Throw (Error ERROR_MESSAGES.ZIP_GENERATION_FAILED)),
             fold_left (ZipGenerator.onUpdate St progressCallback)
                       (fst (generateAsync zip)) st)).
Proof.
  intros Blob generateAsync St images progressCallback st.
  destruct (addFilesFrom_valid (filter ZipGenerator.filterCallback images) 0 []
              (filter_forallb _ _)) as (zip & Hrun & Hlen & Hnth).
  exists zip. simpl in Hrun. split; [exact Hrun|]. split; [exact Hlen|].
  split; [exact Hnth|].
  intros Hne. unfold ZipGenerator.generateZip, ZipGenerator.assemble. rewrite Hrun.
  destruct images as [|img rest]; [contradiction|].
  destruct (filter ZipGenerator.filterCallback (img :: rest)) as [|v vs] eqn:Ef;
    [contradiction|].
  cbn [List.length]. rewrite !Nat2Z.inj_succ.
  destruct (Z.eqb_spec (Z.succ (Z.of_nat (List.length rest))) 0) as [E|_]; [lia|].
  destruct (Z.eqb_spec (Z.succ (Z.of_nat (List.length vs))) 0) as [E|_]; [lia|].
  destruct (generateAsync zip) as [updates r]. reflexivity.
Qed.

Lemma zip_entries_witness :
  exists zip,
    ZipGenerator.addFilesFrom 0
      (filter ZipGenerator.filterCallback
         [ZipGenerator.mkImageObject (Some "data:image/png;base64,AAAA") (Some "image/png");
          ZipGenerator.mkImageObject (Some "data:image/png") (Some "image/png");
          ZipGenerator.mkImageObject (Some "data:image/gif;base64,BBBB") (Some "image/gif")])
      [] = Ok zip
    /\ List.length zip = 2%nat.
Proof.
  destruct (zip_entries _ testGenerateAsync (list Z)
              [ZipGenerator.mkImageObject (Some "data:image/png;base64,AAAA") (Some "image/png");
               ZipGenerator.mkImageObject (Some "data:image/png") (Some "image/png");
               ZipGenerator.mkImageObject (Some "data:image/gif;base64,BBBB") (Some "image/gif")]
              (Some ZipGenerator.pushCall) []) as (zip & Hrun & Hlen & _).
  exists zip. split; [exact Hrun|exact Hlen].
Defined.

(** X10.  The names of the entries the packager adds are pairwise
    distinct, whatever the formats of the images: no entry overwrites
    another. *)
Theorem zip_names_distinct :
  forall (images : list ZipGenerator.ImageObject) (zip : list ZipGenerator.ZipEntry),
    ZipGenerator.addFilesFrom 0 (filter ZipGenerator.filterCallback images) [] = Ok zip ->
    NoDup (map fst zip).
Proof.
  intros images zip H.
  destruct (addFilesFrom_valid (filter ZipGenerator.filterCallback images) 0 []
              (filter_forallb _ _)) as (entries & Hrun & Hlen & Hnth).
  rewrite H in Hrun. injection Hrun as ->. simpl.
  unfold ZipGenerator.ZipEntry in *.
  apply NoDup_nth_error. intros i j Hi Hij.
  rewrite length_map in Hi.
  assert (Hi' : (i < List.length (filter ZipGenerator.filterCallback images))%nat)
    by (rewrite <- Hlen; exact Hi).
  rewrite !nth_error_map in Hij.
  destruct (nth_error (filter ZipGenerator.filterCallback images) i) as [a|] eqn:Ea;
    [|apply nth_error_None in Ea; lia].
  destruct (Hnth i a Ea) as (p & _ & _ & Hei). rewrite Hei in Hij. cbn [option_map fst] in Hij.
  destruct (nth_error entries j) as [[name data]|] eqn:Ej; [|discriminate].
  assert (Hj : (j < List.length (filter ZipGenerator.filterCallback images))%nat).
  { rewrite <- Hlen. apply nth_error_Some. congruence. }
  destruct (nth_error (filter ZipGenerator.filterCallback images) j) as [b|] eqn:Eb;
    [|apply nth_error_None in Eb; lia].
  destruct (Hnth j b Eb) as (q & _ & _ & Hej). rewrite Hej in Ej.
  injection Ej as <- _. cbn [option_map fst] in Hij.
  apply (f_equal (fun o => match o with Some x => x | None => ""%string end)) in Hij.
  cbv beta iota in Hij.
  apply generateFilename_index in Hij. lia.
Qed.

Lemma zip_names_distinct_witness :
  NoDup (map fst [("image-1.png", Some "AAAA"); ("image-2.gif", Some "BBBB")]).
Proof.
  apply (zip_names_distinct
           [ZipGenerator.mkImageObject (Some "data:image/png;base64,AAAA") (Some "image/png");
            ZipGenerator.mkImageObject (Some "data:image/png") (Some "image/png");
            ZipGenerator.mkImageObject (Some "data:image/gif;base64,BBBB") (Some "image/gif")]).
  reflexivity.
Defined.

(** X11.  [generateZip] rejects with one of two errors only: the plain
    [Error] "No images provided for ZIP generation", exactly when the list
    is absent or empty, in which case the callback is not called; and
    otherwise the plain [Error] with the ZIP_GENERATION_FAILED text.  No
    error of the archive library and no other error reaches the caller. *)
Theorem generateZip_rejections :
  forall (Blob : Type) (generateAsync : list ZipGenerator.ZipEntry -> list Q * result Blob)
         (St : Type) (images : option (list ZipGenerator.ImageObject))
         (progressCallback : option (Z -> St -> St)) (st st' : St) (e : error),
    ZipGenerator.generateZip Blob generateAsync St images progressCallback st
    = (Throw e, st') ->
    (e = Error "No images provided for ZIP generation" /\ st' = st
     /\ (images = None \/ images = Some []))
    \/ (e = Error ERROR_MESSAGES.ZIP_GENERATION_FAILED
        /\ exists img rest, images = Some (img :: rest)).
Proof.
  intros Blob generateAsync St images progressCallback st st' e.
  unfold ZipGenerator.generateZip. destruct images as [[|img rest]|].
  - simpl. intros H. injection H as <- <-. left. repeat split. right. reflexivity.
  - cbn [List.length]. rewrite Nat2Z.inj_succ.
    destruct (Z.eqb_spec (Z.succ (Z.of_nat (List.length rest))) 0) as [E|_]; [lia|].
    destruct (ZipGenerator.assemble Blob generateAsync St (img :: rest) progressCallback st)
      as [r st1].
    destruct r as [blob|e1]; simpl; intros H; [discriminate|].
    injection H as <- <-. right. split; [reflexivity|]. exists img, rest. reflexivity.
  - intros H. injection H as <- <-. left. repeat split. left. reflexivity.
Qed.

Lemma generateZip_rejections_witness :
  (Error ERROR_MESSAGES.ZIP_GENERATION_FAILED = Error "No images provided for ZIP generation"
   /\ @nil Z = []
   /\ (Some [ZipGenerator.mkImageObject None None] = None
       \/ Some [ZipGenerator.mkImageObject None None] = Some []))
  \/ (Error ERROR_MESSAGES.ZIP_GENERATION_FAILED = Error ERROR_MESSAGES.ZIP_GENERATION_FAILED
      /\ exists img rest, Some [ZipGenerator.mkImageObject None None] = Some (img :: rest)).
Proof.
  apply (generateZip_rejections _ testGenerateAsync (list Z)
           (Some [ZipGenerator.mkImageObject None None]) (Some ZipGenerator.pushCall) [] []).
  reflexivity.
Defined.

End PackagingProperties.

(** ** Single downloads *)

Module DownloadProperties.
Import Js Spec JsFacts TrimSplitFacts SvgExtractorFacts TextFacts.
Import ExtractionProperties PackagingProperties.
Local Open Scope list_scope.

(** With a format present the downloader and the packager compute the same
    extension, the empty format included. *)
Lemma same_extension (f : string) :
  orString (nth_error (split "/" f) 1) "png"
  = orString (nth_error (split "/" (orString (Some f) "image/png")) 1) "png".
Proof.
  destruct f as [|c f]; reflexivity.
Qed.

Lemma download_default_name (image : SvgExtractor.ExtractedImage) (f : string) :
  SvgExtractor.format image = Some f ->
  ImageDownloader.downloadSingleImage image None
  = Ok (ImageDownloader.mkLink
          (SvgExtractor.dataUrl image)
          (ZipGenerator.generateFilename (ZipGenerator.ofExtracted image)
                                         (SvgExtractor.index image))).
Proof.
  intros Hf. unfold ImageDownloader.downloadSingleImage, ZipGenerator.generateFilename,
    ZipGenerator.ofExtracted.
  cbn [truthy bind ZipGenerator.format]. rewrite Hf, (same_extension f). reflexivity.
Qed.

(** X12.  [downloadSingleImage] names the download by the custom file name
    when one is given and not empty.  Otherwise, for an image with a
    format, the name is the one [generateFilename] gives the image at the
    image's own index; for an image without a format it throws a
    TypeError, where [generateFilename] falls back to "png". *)
Theorem download_name :
  forall image customFilename,
    (forall name, customFilename = Some name -> name <> "" ->
       ImageDownloader.downloadSingleImage image customFilename
       = Ok (ImageDownloader.mkLink (SvgExtractor.dataUrl image) name))
    /\ (truthy customFilename = false ->
        forall f, SvgExtractor.format image = Some f ->
          ImageDownloader.downloadSingleImage image customFilename
          = Ok (ImageDownloader.mkLink
                  (SvgExtractor.dataUrl image)
                  (ZipGenerator.generateFilename (ZipGenerator.ofExtracted image)
                                                 (SvgExtractor.index image))))
    /\ (truthy customFilename = false -> SvgExtractor.format image = None ->
        (exists m, ImageDownloader.downloadSingleImage image customFilename
                   = Throw (TypeError m))
        /\ ZipGenerator.generateFilename (ZipGenerator.ofExtracted image)
                                         (SvgExtractor.index image)
           = ("image-" ++ numberToString (SvgExtractor.index image + 1) ++ ".png")%string).
Proof.
  intros image customFilename. split; [|split].
  - intros name -> Hne. unfold ImageDownloader.downloadSingleImage.
    unfold truthy, orString. rewrite (proj2 (String.eqb_neq _ _) Hne). reflexivity.
  - intros Hc f Hf. rewrite <- (download_default_name image f Hf).
    unfold ImageDownloader.downloadSingleImage. rewrite Hc. reflexivity.
  - intros Hc Hf. split.
    + unfold ImageDownloader.downloadSingleImage. rewrite Hc, Hf.
      eexists. reflexivity.
    + unfold ZipGenerator.generateFilename, ZipGenerator.ofExtracted.
      cbn [ZipGenerator.format]. rewrite Hf. reflexivity.
Qed.

Lemma download_name_witness :
  ImageDownloader.downloadSingleImage
    (SvgExtractor.mkImage "data:image/jpeg;base64,XYZ" (Some "image/jpeg") 5 2 "img-0-5")
    (Some "my-custom-name.png")
  = Ok (ImageDownloader.mkLink "data:image/jpeg;base64,XYZ" "my-custom-name.png")
  /\ ImageDownloader.downloadSingleImage
       (SvgExtractor.mkImage "data:image/jpeg;base64,XYZ" (Some "image/jpeg") 5 2 "img-0-5")
       (Some "")
     = Ok (ImageDownloader.mkLink "data:image/jpeg;base64,XYZ" "image-6.jpeg").
Proof.
  destruct (download_name
              (SvgExtractor.mkImage "data:image/jpeg;base64,XYZ" (Some "image/jpeg") 5 2
                                    "img-0-5")
              (Some "my-custom-name.png")) as (H1 & _).
  destruct (download_name
              (SvgExtractor.mkImage "data:image/jpeg;base64,XYZ" (Some "image/jpeg") 5 2
                                    "img-0-5")
              (Some "")) as (_ & H2 & _).
  split.
  - apply H1; [reflexivity|discriminate].
  - apply (H2 eq_refl "image/jpeg"). reflexivity.
Defined.

(** X13.  On a record [extractImages] returned, [downloadSingleImage]
    without a custom name never throws: it clicks a link to the record's
    data URL whose download name is "image-", the record's index plus
    one, and the extension of the record's format. *)
Theorem download_of_extracted :
  forall parse now s recs r,
    SvgExtractor.extractImages parse now s = Ok recs -> In r recs ->
    ImageDownloader.downloadSingleImage r None
    = Ok (ImageDownloader.mkLink
            (SvgExtractor.dataUrl r)
            (ZipGenerator.generateFilename (ZipGenerator.ofExtracted r)
                                           (SvgExtractor.index r)))
    /\ exists subtype,
         ZipGenerator.generateFilename (ZipGenerator.ofExtracted r) (SvgExtractor.index r)
         = ("image-" ++ numberToString (SvgExtractor.index r + 1) ++ "."
              ++ orString (nth_error (split "/" ("image/" ++ subtype)) 1) "png")%string.
Proof.
  intros parse now s recs r H Hin.
  destruct (record_origin _ _ _ _ _ H Hin) as (i & Hi & Hr).
  destruct (embedded_at _ _ Hi) as (_ & _ & Hstart).
  destruct (formatOf_data_image _ Hstart) as [subtype Hf].
  assert (Hfr : SvgExtractor.format r = Some ("image/" ++ subtype)%string).
  { rewrite Hr. exact Hf. }
  split; [exact (download_default_name r _ Hfr)|].
  exists subtype. unfold ZipGenerator.generateFilename, ZipGenerator.ofExtracted.
  cbn [ZipGenerator.format]. rewrite Hfr. reflexivity.
Qed.

Lemma download_of_extracted_witness :
  ImageDownloader.downloadSingleImage
    (SvgExtractor.mkImage "data:image/png;base64,ABC123" (Some "image/png") 1 4
                          "img-1700000000000-1") None
  = Ok (ImageDownloader.mkLink "data:image/png;base64,ABC123" "image-2.png").
Proof.
  apply (download_of_extracted testParser testClock mixedSvg
           [SvgExtractor.mkImage "data:image/png;base64,ABC123" (Some "image/png") 1 4
                                 "img-1700000000000-1"]).
  - reflexivity.
  - left. reflexivity.
Defined.

(** When no image element is skipped, the record at position k has index
    k. *)
Lemma index_is_position parse now (s : string) (recs : list SvgExtractor.ExtractedImage)
      (k : nat) (r : SvgExtractor.ExtractedImage) :
  SvgExtractor.extractImages parse now s = Ok recs ->
  forallb embedded (SvgExtractor.imageElements (parse s)) = true ->
  nth_error recs k = Some r -> SvgExtractor.index r = Z.of_nat k.
Proof.
  intros H Hall Hk. apply extractImages_Ok in H. subst recs.
  rewrite forEachFrom_records, (embeddedPositions_all _ Hall) in Hk.
  rewrite nth_error_map, nth_error_seq in Hk.
  destruct (k <? List.length (SvgExtractor.imageElements (parse s)))%nat; [|discriminate].
  simpl in Hk. injection Hk as <-. reflexivity.
Qed.

Lemma links_from_names (recs : list SvgExtractor.ExtractedImage) :
  forall zip : list ZipGenerator.ZipEntry,
    map fst zip
    = map (fun r => ZipGenerator.generateFilename (ZipGenerator.ofExtracted r)
                                                  (SvgExtractor.index r)) recs ->
    (forall r, In r recs -> exists f, SvgExtractor.format r = Some f) ->
    map (fun r => ImageDownloader.downloadSingleImage r None) recs
    = map (fun re => Ok (ImageDownloader.mkLink (SvgExtractor.dataUrl (fst re))
                                                (fst (snd re))))
          (combine recs zip).
Proof.
  induction recs as [|r recs IH]; intros zip Hn Hf.
  - reflexivity.
  - destruct zip as [|e zip]; [discriminate|].
    cbn [map combine fst snd] in Hn |- *.
    assert (He : fst e = ZipGenerator.generateFilename (ZipGenerator.ofExtracted r)
                                                       (SvgExtractor.index r)).
    { apply (f_equal (fun l => hd ""%string l)) in Hn. exact Hn. }
    assert (Ht : map fst zip
                 = map (fun r => ZipGenerator.generateFilename
                                   (ZipGenerator.ofExtracted r) (SvgExtractor.index r)) recs).
    { apply (f_equal (@tl string)) in Hn. exact Hn. }
    destruct (Hf r (or_introl eq_refl)) as [f Hfr].
    rewrite (download_default_name r f Hfr), He. f_equal.
    apply IH; [exact Ht|]. intros r' Hr'. apply Hf. right. exact Hr'.
Qed.

(** X14.  When no image element of the document is skipped and the
    packager keeps every record, the single download of the record at
    position k carries the name of the archive entry at position k: the
    two ways of saving an image agree on its file name. *)
Theorem names_agree_when_nothing_skipped :
  forall parse now s recs zip,
    SvgExtractor.extractImages parse now s = Ok recs ->
    forallb embedded (SvgExtractor.imageElements (parse s)) = true ->
    forallb ZipGenerator.filterCallback (map ZipGenerator.ofExtracted recs) = true ->
    ZipGenerator.addFilesFrom 0
      (filter ZipGenerator.filterCallback (map ZipGenerator.ofExtracted recs)) [] = Ok zip ->
    List.length zip = List.length recs
    /\ map (fun r => ImageDownloader.downloadSingleImage r None) recs
       = map (fun re => Ok (ImageDownloader.mkLink (SvgExtractor.dataUrl (fst re))
                                                   (fst (snd re))))
             (combine recs zip).
Proof.
  intros parse now s recs zip H Hall Hkept Hzip.
  rewrite (forallb_filter_id _ _ Hkept) in Hzip.
  destruct (addFilesFrom_valid (map ZipGenerator.ofExtracted recs) 0 [] Hkept)
    as (entries & Hrun & Hlen & Hnth).
  rewrite Hzip in Hrun. injection Hrun as ->. simpl.
  rewrite length_map in Hlen. split; [exact Hlen|].
  apply links_from_names.
  - unfold ZipGenerator.ZipEntry in *.
    apply nth_error_ext. intros k. rewrite !nth_error_map.
    destruct (nth_error recs k) as [r|] eqn:Er.
    + assert (Hm : nth_error (map ZipGenerator.ofExtracted recs) k
                   = Some (ZipGenerator.ofExtracted r)).
      { rewrite nth_error_map, Er. reflexivity. }
      destruct (Hnth _ _ Hm) as (p & _ & _ & He). rewrite He.
      cbn [option_map fst]. rewrite (index_is_position _ _ _ _ _ _ H Hall Er).
      reflexivity.
    + apply nth_error_None in Er.
      assert (Hn : nth_error entries k = None) by (apply nth_error_None; lia).
      rewrite Hn. reflexivity.
  - intros r Hr. destruct (record_origin _ _ _ _ _ H Hr) as (i & Hi & ->).
    destruct (embedded_at _ _ Hi) as (_ & _ & Hstart).
    destruct (formatOf_data_image _ Hstart) as [subtype Hf].
    eexists. exact Hf.
Qed.

Lemma names_agree_when_nothing_skipped_witness :
  map (fun r => ImageDownloader.downloadSingleImage r None)
      [SvgExtractor.buildImage testClock "data:image/gif;base64,R0lGOD" 0]
  = [Ok (ImageDownloader.mkLink "data:image/gif;base64,R0lGOD" "image-1.gif")].
Proof.
  apply (names_agree_when_nothing_skipped testParser testClock legacySvg
           [SvgExtractor.buildImage testClock "data:image/gif;base64,R0lGOD" 0]
           [("image-1.gif", Some "R0lGOD")]);
    reflexivity.
Defined.

End DownloadProperties.

(** ** Fetching from a URL *)

Module FetchProperties.
Import Js Spec Terms UrlFetcher ErrorHandler JsFacts.
Import ValidationProperties.
Local Open Scope list_scope.

Section Host.

Variable URL_protocol : string -> option string.
Variable fetch : string -> Z -> settled Response.
Variable url : string.
Variable retries : Z.

Lemma schedule_pending (k : nat) : schedule k = pending k ++ [Fetch (Z.of_nat k)].
Proof.
  destruct k as [|k]; [reflexivity|].
  cbn [schedule pending]. rewrite <- app_assoc. reflexivity.
Qed.

(** One failed attempt that may be retried, with another attempt left. *)
Lemma retryLoop_step (remaining : nat) (k : nat) (lastError : option error) :
  retryable (attemptOnce fetch url (Z.of_nat k)) = true ->
  Z.of_nat k < retries ->
  retryLoop fetch url retries (S remaining) (Z.of_nat k) lastError (pending k)
  = retryLoop fetch url retries remaining (Z.of_nat (S k))
              (thrown (attemptOnce fetch url (Z.of_nat k))) (pending (S k)).
Proof.
  intros Hr Hlt. cbn [retryLoop].
  destruct (attemptOnce fetch url (Z.of_nat k)) as [content|e]; [discriminate|].
  cbn [retryable] in Hr. apply negb_true_iff in Hr. unfold final in Hr. rewrite Hr.
  destruct (Z.ltb_spec (Z.of_nat k) retries) as [_|Hge]; [|lia].
  cbn [thrown pending]. rewrite schedule_pending, Nat2Z.inj_succ. reflexivity.
Qed.

(** After [k] failed attempts that may be retried, the loop stands before
    attempt [k]. *)
Lemma retryLoop_after_failures (k : nat) :
  Z.of_nat k <= retries ->
  (forall i, (i < k)%nat -> retryable (attemptOnce fetch url (Z.of_nat i)) = true) ->
  forall remaining,
    retryLoop fetch url retries (k + remaining) 0 None []
    = retryLoop fetch url retries remaining (Z.of_nat k)
                (lastErrorBefore (attemptOnce fetch url) k) (pending k).
Proof.
  induction k as [|k IH]; intros Hk Hfail remaining.
  - reflexivity.
  - replace (S k + remaining)%nat with (k + S remaining)%nat by lia.
    rewrite IH; [|lia|intros i Hi; apply Hfail; lia].
    apply retryLoop_step; [apply Hfail; lia|lia].
Qed.

Lemma remaining_split (k : nat) :
  Z.of_nat k <= retries ->
  Z.to_nat (retries + 1) = (k + S (Z.to_nat (retries - Z.of_nat k)))%nat.
Proof.
  intros Hk. lia.
Qed.

(** X15.  Let the URL be valid and let the attempts before attempt [k],
    with [k] at most [retries], each fail with an error that is neither a
    ValidationError nor mentions "CORS".  If attempt [k] gets an SVG text,
    [fetchSvgFromUrl] returns that text, after [k + 1] calls to [fetch]
    separated by pauses of 1000, 2000, 4000, ... milliseconds. *)
Theorem fetch_succeeds_after_retries :
  forall (k : nat) (content : string),
    isValidUrl URL_protocol url = true ->
    Z.of_nat k <= retries ->
    (forall i, (i < k)%nat -> retryable (attemptOnce fetch url (Z.of_nat i)) = true) ->
    attemptOnce fetch url (Z.of_nat k) = Ok content ->
    fetchSvgFromUrl URL_protocol fetch url retries = (Returns content, schedule k).
Proof.
  intros k content Hv Hk Hfail Hok. unfold fetchSvgFromUrl. rewrite Hv. cbn [negb].
  rewrite (remaining_split k Hk), (retryLoop_after_failures k Hk Hfail).
  cbn [retryLoop]. rewrite Hok, schedule_pending. reflexivity.
Qed.

(** X16.  Under the same conditions, if attempt [k] fails with a
    ValidationError or with an error whose message contains "CORS",
    [fetchSvgFromUrl] throws that error at once: [fetch] is not called
    again, however many retries are left. *)
Theorem fetch_stops_at_final_error :
  forall (k : nat) (e : error),
    isValidUrl URL_protocol url = true ->
    Z.of_nat k <= retries ->
    (forall i, (i < k)%nat -> retryable (attemptOnce fetch url (Z.of_nat i)) = true) ->
    attemptOnce fetch url (Z.of_nat k) = Throw e ->
    final e = true ->
    fetchSvgFromUrl URL_protocol fetch url retries = (Throws (Some e), schedule k).
Proof.
  intros k e Hv Hk Hfail He Hfinal. unfold fetchSvgFromUrl. rewrite Hv. cbn [negb].
  rewrite (remaining_split k Hk), (retryLoop_after_failures k Hk Hfail).
  cbn [retryLoop]. rewrite He. unfold final in Hfinal. rewrite Hfinal, schedule_pending.
  reflexivity.
Qed.

(** When every attempt fails and may be retried, the loop runs to its end. *)
Lemma loop_exhausts :
  isValidUrl URL_protocol url = true ->
  0 <= retries ->
  (forall i, (i <= Z.to_nat retries)%nat ->
             retryable (attemptOnce fetch url (Z.of_nat i)) = true) ->
  fetchSvgFromUrl URL_protocol fetch url retries
  = (Throws (thrown (attemptOnce fetch url retries)), schedule (Z.to_nat retries)).
Proof.
  intros Hv Hr Hfail. unfold fetchSvgFromUrl. rewrite Hv. cbn [negb].
  assert (Hk : Z.of_nat (Z.to_nat retries) <= retries) by lia.
  rewrite (remaining_split _ Hk).
  rewrite (retryLoop_after_failures _ Hk); [|intros i Hi; apply Hfail; lia].
  replace (Z.to_nat (retries - Z.of_nat (Z.to_nat retries))) with 0%nat by lia.
  cbn [retryLoop]. rewrite Z2Nat.id by exact Hr.
  specialize (Hfail (Z.to_nat retries) (Nat.le_refl _)). rewrite Z2Nat.id in Hfail by exact Hr.
  destruct (attemptOnce fetch url retries) as [content|e]; [discriminate|].
  cbn [retryable] in Hfail. apply negb_true_iff in Hfail. unfold final in Hfail.
  rewrite Hfail. destruct (Z.ltb_spec retries retries) as [Hlt|_]; [lia|].
  cbn [thrown]. rewrite schedule_pending, Z2Nat.id by exact Hr. reflexivity.
Qed.

(** X17.  If the URL is valid, [retries] is not negative and every
    attempt up to [retries] fails with an error that may be retried,
    [fetchSvgFromUrl] throws the error of the last attempt, after
    [retries + 1] calls to [fetch] and no pause after the last one. *)
Theorem fetch_exhausts_retries :
  isValidUrl URL_protocol url = true ->
  0 <= retries ->
  (forall i, (i <= Z.to_nat retries)%nat ->
             retryable (attemptOnce fetch url (Z.of_nat i)) = true) ->
  fetchSvgFromUrl URL_protocol fetch url retries
  = (Throws (thrown (attemptOnce fetch url retries)), schedule (Z.to_nat retries)).
Proof.
  exact loop_exhausts.
Qed.

(** *** What holds whatever the host does *)

Lemma fetchCount_schedule (k : nat) : fetchCount (schedule k) = S k.
Proof.
  unfold fetchCount. induction k as [|k IH]; [reflexivity|].
  cbn [schedule]. rewrite filter_app, length_app, IH. simpl. lia.
Qed.

Lemma pauses_schedule (k : nat) :
  pauses (schedule k) = map (fun i => 1000 * 2 ^ Z.of_nat i) (seq 0 k).
Proof.
  unfold pauses. induction k as [|k IH]; [reflexivity|].
  cbn [schedule]. rewrite flat_map_app, IH, seq_S, map_app. reflexivity.
Qed.

Lemma retryLoop_shape (remaining : nat) :
  forall (k : nat) (lastError : option error),
    Z.of_nat k + Z.of_nat remaining = retries + 1 ->
    (0 < remaining)%nat ->
    exists k',
      Z.of_nat k' <= retries
      /\ snd (retryLoop fetch url retries remaining (Z.of_nat k) lastError (pending k))
         = schedule k'.
Proof.
  induction remaining as [|remaining IH]; intros k lastError Hsum Hpos; [lia|].
  cbn [retryLoop]. rewrite <- schedule_pending.
  destruct (attemptOnce fetch url (Z.of_nat k)) as [content|e].
  - exists k. split; [lia|reflexivity].
  - destruct (isValidationError e || includes (message e) "CORS").
    + exists k. split; [lia|reflexivity].
    + destruct (Z.ltb_spec (Z.of_nat k) retries) as [Hlt|Hge].
      * change (schedule k ++ [Wait (1000 * 2 ^ Z.of_nat k)]) with (pending (S k)).
        replace (Z.of_nat k + 1) with (Z.of_nat (S k)) by lia.
        apply IH; lia.
      * destruct remaining as [|remaining']; [|lia].
        exists k. split; [lia|reflexivity].
Qed.

(** X18.  For a valid URL and a number of retries that is not negative,
    whatever the host answers: [fetch] is called at least once and at most
    [retries + 1] times, the attempts are numbered from 0, and the pause
    after attempt i, when there is one, is 1000 * 2^i milliseconds. *)
Theorem fetch_follows_schedule :
  isValidUrl URL_protocol url = true ->
  0 <= retries ->
  exists k,
    Z.of_nat k <= retries
    /\ snd (fetchSvgFromUrl URL_protocol fetch url retries) = schedule k
    /\ fetchCount (snd (fetchSvgFromUrl URL_protocol fetch url retries)) = S k
    /\ pauses (snd (fetchSvgFromUrl URL_protocol fetch url retries))
       = map (fun i => 1000 * 2 ^ Z.of_nat i) (seq 0 k).
Proof.
  intros Hv Hr. unfold fetchSvgFromUrl. rewrite Hv. cbn [negb].
  destruct (retryLoop_shape (Z.to_nat (retries + 1)) 0 None) as (k & Hk & Hlog); try lia.
  exists k. cbn [pending Z.of_nat] in Hlog. rewrite Hlog.
  split; [exact Hk|]. split; [reflexivity|].
  split; [apply fetchCount_schedule|apply pauses_schedule].
Qed.

(** X19.  No call to [fetch] is made for a URL that [isValidUrl] refuses:
    the error is the ValidationError with the INVALID_URL text, which
    [handleError] shows as it is.  None is made either for a valid URL
    with a negative number of retries: the loop body never runs and the
    value thrown is [undefined]. *)
Theorem fetch_not_attempted :
  (isValidUrl URL_protocol url = false ->
     fetchSvgFromUrl URL_protocol fetch url retries
     = (Throws (Some (ValidationError ERROR_MESSAGES.INVALID_URL (Some "url"))), [])
     /\ handleError (ValidationError ERROR_MESSAGES.INVALID_URL (Some "url"))
        = "Please enter a valid URL starting with http:// or https://")
  /\ (isValidUrl URL_protocol url = true -> retries < 0 ->
        fetchSvgFromUrl URL_protocol fetch url retries = (Throws None, [])).
Proof.
  unfold fetchSvgFromUrl. split.
  - intros ->. split; reflexivity.
  - intros -> Hneg. cbn [negb].
    replace (Z.to_nat (retries + 1)) with 0%nat by lia. reflexivity.
Qed.

(** *** What a returned text is *)

Lemma innerCatch_throws (r : rejection) : exists e, innerCatch url r = Throw e.
Proof.
  destruct r as [m|e]; [eexists; reflexivity|].
  destruct e as [m|m|m f|m u c|m]; try (eexists; reflexivity).
  simpl. destruct (includes m "fetch"); eexists; reflexivity.
Qed.

Lemma attemptOnce_Ok (attempt : Z) (content : string) :
  attemptOnce fetch url attempt = Ok content ->
  includes content "<svg" = true
  /\ exists response,
       fetch url attempt = Resolved response
       /\ ok response = true /\ text response = Resolved content.
Proof.
  unfold attemptOnce.
  destruct (fetch url attempt) as [response|r] eqn:Ef.
  - destruct (ok response) eqn:Eok; cbn [negb].
    + destruct (text response) as [body|r] eqn:Et.
      * destruct (includes body "<svg") eqn:Ei; cbn [negb].
        -- intros H. injection H as <-. split; [exact Ei|].
           exists response. repeat split; assumption.
        -- intros H. destruct (innerCatch_throws
                                 (Failure (FetchError "URL did not return SVG content"
                                                      (Some url) (Some (status response)))))
             as [e He]. rewrite He in H. discriminate.
      * intros H. destruct (innerCatch_throws r) as [e He]. rewrite He in H. discriminate.
    + intros H.
      destruct (innerCatch_throws
                  (Failure (FetchError
                              ("HTTP " ++ numberToString (status response) ++ ": "
                                       ++ statusText response)
                              (Some url) (Some (status response))))) as [e He].
      rewrite He in H. discriminate.
  - intros H. destruct (innerCatch_throws r) as [e He]. rewrite He in H. discriminate.
Qed.

Lemma retryLoop_returns (remaining : nat) :
  forall attempt lastError log content log',
    retryLoop fetch url retries remaining attempt lastError log = (Returns content, log') ->
    exists a, attemptOnce fetch url a = Ok content.
Proof.
  induction remaining as [|remaining IH]; intros attempt lastError log content log' H.
  - discriminate.
  - cbn [retryLoop] in H.
    destruct (attemptOnce fetch url attempt) as [c|e] eqn:Ea.
    + injection H as <- _. exists attempt. exact Ea.
    + destruct (isValidationError e || includes (message e) "CORS"); [discriminate|].
      destruct (attempt <? retries); exact (IH _ _ _ _ _ H).
Qed.

(** X20.  A text [fetchSvgFromUrl] returns is the body of a response whose
    [ok] flag was set, and it contains "<svg".  So [isValidSvg] accepts it,
    and [extractImages] on it either returns or throws the ParseError: the
    validation errors cannot occur on fetched text. *)
Theorem fetched_text_is_accepted :
  forall content log,
    fetchSvgFromUrl URL_protocol fetch url retries = (Returns content, log) ->
    (exists attempt response,
        fetch url attempt = Resolved response
        /\ ok response = true /\ text response = Resolved content)
    /\ contains content "<svg"
    /\ Validators.valid (Validators.isValidSvg content) = true
    /\ forall parse now e,
         SvgExtractor.extractImages parse now content = Throw e ->
         e = ParseError "Failed to parse SVG content. The SVG may be malformed.".
Proof.
  intros content log H. unfold fetchSvgFromUrl in H.
  destruct (isValidUrl URL_protocol url); cbn [negb] in H; [|discriminate].
  apply retryLoop_returns in H. destruct H as [a Ha].
  apply attemptOnce_Ok in Ha. destruct Ha as (Hi & response & Hf & Hok & Ht).
  apply includes_contains in Hi.
  pose proof (isValidSvg_accepts_tag _ Hi) as Hv.
  split; [exists a, response; repeat split; assumption|].
  split; [exact Hi|]. split; [exact Hv|].
  intros parse now e He. unfold SvgExtractor.extractImages in He. rewrite Hv in He.
  cbn [negb] in He. destruct (SvgExtractor.parsererror (parse content)); [|discriminate].
  injection He as <-. reflexivity.
Qed.

(** *** What a thrown error is *)

Lemma attemptOnce_no_network_TypeError (attempt : Z) (m : string) :
  attemptOnce fetch url attempt = Throw (TypeError m) -> includes m "fetch" = false.
Proof.
  assert (Hc : forall r, innerCatch url r = Throw (TypeError m) -> includes m "fetch" = false).
  { intros [m'|e]; [discriminate|].
    destruct e as [m'|m'|m' f|m' u c|m']; simpl; try discriminate.
    destruct (includes m' "fetch") eqn:E; [discriminate|].
    intros H. injection H as <-. exact E. }
  unfold attemptOnce.
  destruct (fetch url attempt) as [response|r]; [|apply Hc].
  destruct (ok response); cbn [negb]; [|apply Hc].
  destruct (text response) as [body|r]; [|apply Hc].
  destruct (includes body "<svg"); cbn [negb]; [discriminate|apply Hc].
Qed.

Lemma retryLoop_throws (remaining : nat) :
  forall attempt lastError log e log',
    retryLoop fetch url retries remaining attempt lastError log = (Throws (Some e), log') ->
    lastError = Some e \/ exists a, attemptOnce fetch url a = Throw e.
Proof.
  induction remaining as [|remaining IH]; intros attempt lastError log e log' H.
  - injection H as -> _. left. reflexivity.
  - cbn [retryLoop] in H.
    destruct (attemptOnce fetch url attempt) as [c|e1] eqn:Ea; [discriminate|].
    destruct (isValidationError e1 || includes (message e1) "CORS").
    + injection H as <- _. right. exists attempt. exact Ea.
    + assert (Hrec : Some e1 = Some e \/ exists a, attemptOnce fetch url a = Throw e)
        by (destruct (attempt <? retries); exact (IH _ _ _ _ _ H)).
      destruct Hrec as [Hs|Hs]; [|right; exact Hs].
      injection Hs as <-. right. exists attempt. exact Ea.
Qed.

(** X21.  [fetchSvgFromUrl] never throws a TypeError whose message
    mentions "fetch": such a failure of the network layer always leaves as
    the FetchError with the CORS text.  The "network error" text of
    [handleError] is therefore never the translation of such a TypeError
    thrown by [fetchSvgFromUrl]. *)
Theorem fetch_never_throws_network_TypeError :
  forall m log,
    fetchSvgFromUrl URL_protocol fetch url retries = (Throws (Some (TypeError m)), log) ->
    includes m "fetch" = false
    /\ handleError (TypeError m)
       = (if String.eqb m "" then unexpected else m).
Proof.
  intros m log H. unfold fetchSvgFromUrl in H.
  assert (Hm : includes m "fetch" = false).
  { destruct (isValidUrl URL_protocol url); cbn [negb] in H; [|discriminate].
    apply retryLoop_throws in H. destruct H as [H|[a Ha]]; [discriminate|].
    exact (attemptOnce_no_network_TypeError _ _ Ha). }
  split; [exact Hm|]. unfold handleError. rewrite Hm. reflexivity.
Qed.

(** X22.  If the URL is valid, [retries] is not negative and the first
    call to [fetch] fails in the network layer, with a TypeError whose
    message mentions "fetch", then [fetchSvgFromUrl] throws the FetchError
    with the CORS text after that one call: a network failure is never
    retried, and [handleError] shows it as a CORS restriction. *)
Theorem network_failure_is_not_retried :
  forall m,
    isValidUrl URL_protocol url = true ->
    0 <= retries ->
    fetch url 0 = Rejected (Failure (TypeError m)) ->
    includes m "fetch" = true ->
    fetchSvgFromUrl URL_protocol fetch url retries
    = (Throws (Some (FetchError ERROR_MESSAGES.CORS_ERROR (Some url) None)), [Fetch 0])
    /\ handleError (FetchError ERROR_MESSAGES.CORS_ERROR (Some url) None)
       = ERROR_MESSAGES.CORS_ERROR.
Proof.
  intros m Hv Hr Hf Hm. split; [|reflexivity].
  unfold fetchSvgFromUrl. rewrite Hv. cbn [negb].
  replace (Z.to_nat (retries + 1)) with (S (Z.to_nat retries)) by lia.
  cbn [retryLoop]. unfold attemptOnce. rewrite Hf. cbn [innerCatch]. rewrite Hm.
  reflexivity.
Qed.

(** X23.  If the URL is valid, [retries] is not negative and every call to
    [fetch] is aborted by the timeout timer, then [fetchSvgFromUrl] tries
    [retries + 1] times and throws the FetchError with the timeout text,
    which [handleError] shows as it is. *)
Theorem timeouts_are_retried :
  isValidUrl URL_protocol url = true ->
  0 <= retries ->
  (forall attempt, exists m, fetch url attempt = Rejected (AbortError m)) ->
  fetchSvgFromUrl URL_protocol fetch url retries
  = (Throws (Some (FetchError ERROR_MESSAGES.TIMEOUT_ERROR (Some url) None)),
     schedule (Z.to_nat retries))
  /\ handleError (FetchError ERROR_MESSAGES.TIMEOUT_ERROR (Some url) None)
     = ERROR_MESSAGES.TIMEOUT_ERROR.
Proof.
  intros Hv Hr Habort. split; [|reflexivity].
  assert (Hall : forall a, attemptOnce fetch url a
                           = Throw (FetchError ERROR_MESSAGES.TIMEOUT_ERROR (Some url) None)).
  { intros a. unfold attemptOnce. destruct (Habort a) as [m ->]. reflexivity. }
  rewrite (loop_exhausts Hv Hr).
  - rewrite Hall. reflexivity.
  - intros i _. rewrite Hall. reflexivity.
Qed.

End Host.

(** *** Examples *)

Lemma fetch_succeeds_after_retries_witness :
  fetchSvgFromUrl testProtocol slowHost "https://example.com/image.svg" 3
  = (Returns mixedSvg, [Fetch 0; Wait 1000; Fetch 1; Wait 2000; Fetch 2]).
Proof.
  apply (fetch_succeeds_after_retries testProtocol slowHost
           "https://example.com/image.svg" 3 2 mixedSvg).
  - reflexivity.
  - simpl. lia.
  - intros [|[|i]] Hi; [reflexivity|reflexivity|lia].
  - reflexivity.
Defined.

Lemma fetch_stops_at_final_error_witness :
  fetchSvgFromUrl testProtocol deadHost "https://example.com/image.svg" 5
  = (Throws (Some (FetchError ERROR_MESSAGES.CORS_ERROR
                              (Some "https://example.com/image.svg") None)),
     [Fetch 0]).
Proof.
  apply (fetch_stops_at_final_error testProtocol deadHost
           "https://example.com/image.svg" 5 0).
  - reflexivity.
  - simpl. lia.
  - intros i Hi. lia.
  - reflexivity.
  - reflexivity.
Defined.

Lemma fetch_exhausts_retries_witness :
  fetchSvgFromUrl testProtocol busyHost "https://example.com/image.svg" 2
  = (Throws (Some (FetchError "HTTP 503: Service Unavailable"
                              (Some "https://example.com/image.svg") (Some 503))),
     [Fetch 0; Wait 1000; Fetch 1; Wait 2000; Fetch 2]).
Proof.
  apply (fetch_exhausts_retries testProtocol busyHost "https://example.com/image.svg" 2).
  - reflexivity.
  - lia.
  - intros i Hi. reflexivity.
Defined.

Lemma fetch_follows_schedule_witness :
  exists k,
    Z.of_nat k <= 3
    /\ snd (fetchSvgFromUrl testProtocol slowHost "https://example.com/image.svg" 3)
       = schedule k
    /\ fetchCount (snd (fetchSvgFromUrl testProtocol slowHost
                                        "https://example.com/image.svg" 3)) = S k
    /\ pauses (snd (fetchSvgFromUrl testProtocol slowHost
                                    "https://example.com/image.svg" 3))
       = map (fun i => 1000 * 2 ^ Z.of_nat i) (seq 0 k).
Proof.
  apply (fetch_follows_schedule testProtocol slowHost "https://example.com/image.svg" 3).
  - reflexivity.
  - lia.
Defined.

Lemma fetch_not_attempted_witness :
  fetchSvgFromUrl testProtocol slowHost "ftp://example.com/image.svg" 3
  = (Throws (Some (ValidationError ERROR_MESSAGES.INVALID_URL (Some "url"))), [])
  /\ fetchSvgFromUrl testProtocol slowHost "https://example.com/image.svg" (-1)
     = (Throws None, []).
Proof.
  split.
  - destruct (fetch_not_attempted testProtocol slowHost "ftp://example.com/image.svg" 3)
      as [H _].
    apply H. reflexivity.
  - destruct (fetch_not_attempted testProtocol slowHost "https://example.com/image.svg" (-1))
      as [_ H].
    apply H; [reflexivity|lia].
Defined.

Lemma fetched_text_is_accepted_witness :
  Validators.valid (Validators.isValidSvg mixedSvg) = true.
Proof.
  apply (fetched_text_is_accepted testProtocol slowHost "https://example.com/image.svg" 3
           mixedSvg [Fetch 0; Wait 1000; Fetch 1; Wait 2000; Fetch 2]).
  reflexivity.
Defined.

Lemma fetch_never_throws_network_TypeError_witness :
  includes "Load failed" "fetch" = false
  /\ handleError (TypeError "Load failed") = "Load failed".
Proof.
  apply (fetch_never_throws_network_TypeError testProtocol brokenHost
           "https://example.com/image.svg" 0 "Load failed" [Fetch 0]).
  reflexivity.
Defined.

Lemma network_failure_is_not_retried_witness :
  fetchSvgFromUrl testProtocol deadHost "https://example.com/image.svg" 4
  = (Throws (Some (FetchError ERROR_MESSAGES.CORS_ERROR
                              (Some "https://example.com/image.svg") None)),
     [Fetch 0]).
Proof.
  apply (network_failure_is_not_retried testProtocol deadHost
           "https://example.com/image.svg" 4 "Failed to fetch").
  - reflexivity.
  - lia.
  - reflexivity.
  - reflexivity.
Defined.

Lemma timeouts_are_retried_witness :
  fetchSvgFromUrl testProtocol stalledHost "https://example.com/image.svg" 1
  = (Throws (Some (FetchError ERROR_MESSAGES.TIMEOUT_ERROR
                              (Some "https://example.com/image.svg") None)),
     [Fetch 0; Wait 1000; Fetch 1]).
Proof.
  apply (timeouts_are_retried testProtocol stalledHost "https://example.com/image.svg" 1).
  - reflexivity.
  - lia.
  - intros attempt. eexists. reflexivity.
Defined.


End FetchProperties.

(** ** Reading a file *)

Module ReadProperties.
Import Js Spec Terms Validators FileReader ErrorHandler JsFacts.
Local Open Scope list_scope.

Lemma isValidFile_invalid_message (file : option File) :
  valid (isValidFile file) = false ->
  exists m, error (isValidFile file) = Some m /\ m <> "".
Proof.
  unfold isValidFile. destruct file as [f|].
  - destruct (size f >? maxSize).
    + intros _. eexists. split; [reflexivity|discriminate].
    + destruct (negb (validTypes_includes (type f)) && negb (endsWith (name f) ".svg")).
      * intros _. eexists. split; [reflexivity|discriminate].
      * discriminate.
  - intros _. eexists. split; [reflexivity|discriminate].
Qed.

Section Reader.

Variable readAsText : File -> list ProgressEvent * ReadEnd.
Variable percentOf : Z -> Z -> Z.
Variable St : Type.

Lemma fold_onprogress (callback : Z -> St -> St) (events : list ProgressEvent) :
  forall st,
    fold_left (onprogress percentOf St (Some callback)) events st
    = fold_left (fun acc p => callback p acc)
                (map (fun ev => percentOf (loaded ev) (total ev))
                     (filter lengthComputable events))
                st.
Proof.
  induction events as [|ev events IH]; intros st.
  - reflexivity.
  - cbn [fold_left filter]. unfold onprogress at 2.
    destruct (lengthComputable ev); cbn [map fold_left]; apply IH.
Qed.

(** X24.  For a file [isValidFile] refuses, [readSvgFile] throws the
    ValidationError whose message is the validator's error and whose field
    is "file"; nothing is read and the progress callback is not called,
    whatever the reader would do.  [handleError] shows that message as it
    is.  A file above 10,485,760 bytes is refused with the size message
    even when its name ends in ".svg". *)
Theorem read_refuses_invalid_file :
  forall (file : option File) (progressCallback : option (Z -> St -> St)) (st : St),
    valid (isValidFile file) = false ->
    (exists m,
        error (isValidFile file) = Some m
        /\ readSvgFile readAsText percentOf St file progressCallback st
           = (Throw (ValidationError m (Some "file")), st)
        /\ handleError (ValidationError m (Some "file")) = m)
    /\ (forall f, file = Some f -> size f > 10485760 ->
          readSvgFile readAsText percentOf St file progressCallback st
          = (Throw (ValidationError "File size exceeds 10MB limit" (Some "file")), st)).
Proof.
  intros file progressCallback st Hv.
  destruct (isValidFile_invalid_message file Hv) as (m & Hm & _).
  assert (Hread : readSvgFile readAsText percentOf St file progressCallback st
                  = (Throw (ValidationError m (Some "file")), st)).
  { unfold readSvgFile. rewrite Hv. cbn [negb]. unfold newValidationError.
    rewrite Hm. reflexivity. }
  split.
  - exists m. split; [exact Hm|]. split; [exact Hread|reflexivity].
  - intros f -> Hsize. rewrite Hread. do 3 f_equal.
    unfold isValidFile in Hm.
    destruct (Z.gtb_spec (size f) maxSize) as [_|Hle].
    + injection Hm as <-. reflexivity.
    + unfold maxSize in Hle. lia.
Qed.

(** X25.  For a file [isValidFile] accepts, [readSvgFile] settles as the
    read ends: with the text read, or with the plain [Error] "Failed to
    read file: " followed by the reader's message, "Unknown error" when
    there is none.  The progress callback is called once for every
    progress event whose length is computable, in order, and for no other
    event. *)
Theorem read_follows_reader :
  forall (f : File) (callback : Z -> St -> St) (st : St),
    valid (isValidFile (Some f)) = true ->
    fst (readSvgFile readAsText percentOf St (Some f) (Some callback) st)
    = match snd (readAsText f) with
      | Load content => Ok content
      | ReadError m => Throw (Error ("Failed to read file: " ++ orString m "Unknown error"))
      end
    /\ snd (readSvgFile readAsText percentOf St (Some f) (Some callback) st)
       = fold_left (fun acc p => callback p acc)
                   (map (fun ev => percentOf (loaded ev) (total ev))
                        (filter lengthComputable (fst (readAsText f))))
                   st
    /\ snd (readSvgFile readAsText percentOf St (Some f) None st) = st.
Proof.
  intros f callback st Hv. unfold readSvgFile. rewrite Hv. cbn [negb].
  destruct (readAsText f) as [events ending]. cbn [fst snd].
  split; [|split].
  - destruct ending; reflexivity.
  - rewrite <- fold_onprogress. destruct ending; reflexivity.
  - assert (Hnone : forall s, fold_left (onprogress percentOf St None) events s = s).
    { induction events as [|ev events IH]; intros s; [reflexivity|]. simpl. apply IH. }
    destruct ending; cbn [snd]; apply Hnone.
Qed.

End Reader.

Lemma read_refuses_invalid_file_witness :
  readSvgFile testReader testPercent (list Z)
              (Some (mkFile 11534336 "image/svg+xml" "large.svg"))
              (Some ZipGenerator.pushCall) []
  = (Throw (ValidationError "File size exceeds 10MB limit" (Some "file")), []).
Proof.
  destruct (read_refuses_invalid_file testReader testPercent (list Z)
              (Some (mkFile 11534336 "image/svg+xml" "large.svg"))
              (Some ZipGenerator.pushCall) [] eq_refl) as [_ H].
  apply (H (mkFile 11534336 "image/svg+xml" "large.svg") eq_refl). simpl. lia.
Defined.

Lemma read_follows_reader_witness :
  fst (readSvgFile testReader testPercent (list Z)
                   (Some (mkFile 100 "" "test.svg")) (Some ZipGenerator.pushCall) [])
  = Ok mixedSvg
  /\ snd (readSvgFile testReader testPercent (list Z)
                      (Some (mkFile 100 "" "test.svg")) (Some ZipGenerator.pushCall) [])
     = [50; 100].
Proof.
  destruct (read_follows_reader testReader testPercent (list Z)
              (mkFile 100 "" "test.svg") ZipGenerator.pushCall [] eq_refl) as (H1 & H2 & _).
  split; [exact H1|exact H2].
Defined.

End ReadProperties.
